(** * ebp2docs: the decoding core of the EmpirBus project viewer

    A shallow embedding of [js/enums.js], [js/component-decoder.js],
    [js/channel-decoder.js] and [js/parser.js], and the properties of the
    decoders, the document extractor and the sort orders.

    Conventions of the embedding.
    - A JavaScript number that the program computes is an integer or NaN.
      It is an [option Z]: [None] is NaN.  Integers are exact, as they are
      in JavaScript below 2^53; a negative zero is the integer 0, which no
      expression of the program tells apart ([||], [===], [Map.get] and
      string conversion all identify the two zeros).
    - A value that may be [null] or [undefined] is an [option]; each record
      field says which of the two its [None] stands for.
    - Strings are sequences of 8-bit code units.
    - The DOM is the tree of elements: the program never reads text nodes. *)

From Stdlib Require Import Ascii String ZArith List Sorted Permutation.
From stdpp Require Import base option list gmap strings pretty.

Open Scope string_scope.
Open Scope Z_scope.

(** ** JavaScript primitives *)

Module JS.

(** [StrWhiteSpaceChar] among the 8-bit code units: TAB, LF, VT, FF, CR,
    SP and NBSP. *)
Definition isStrWhiteSpace (c : ascii) : bool :=
  let n := Z.of_N (Ascii.N_of_ascii c) in
  (9 <=? n) && (n <=? 13) || (n =? 32) || (n =? 160).

Fixpoint trimStart (s : string) : string :=
  match s with
  | String c s' => if isStrWhiteSpace c then trimStart s' else s
  | EmptyString => EmptyString
  end.

(** The value of a code unit as a digit: 0-9, then a-z and A-Z for 10-35. *)
Definition digitValue (c : ascii) : option Z :=
  let n := Z.of_N (Ascii.N_of_ascii c) in
  if (48 <=? n) && (n <=? 57) then Some (n - 48)
  else if (97 <=? n) && (n <=? 122) then Some (n - 87)
  else if (65 <=? n) && (n <=? 90) then Some (n - 55)
  else None.

(** The longest prefix of radix-[R] digits, as an integer; [acc] is [None]
    until a digit has been read. *)
Fixpoint parseDigits (R : Z) (s : string) (acc : option Z) : option Z :=
  match s with
  | String c s' =>
      match digitValue c with
      | Some d =>
          if d <? R then parseDigits R s' (Some (default 0 acc * R + d))
          else acc
      | None => acc
      end
  | EmptyString => acc
  end.

(** [parseInt(string)] with no radix: leading white space is skipped, a
    sign is read, a [0x] or [0X] prefix selects radix 16, and the longest
    prefix of digits is the result; NaN when there is no digit. *)
Definition parseInt (s : string) : option Z :=
  let s0 := trimStart s in
  let '(sign, s1) :=
    match s0 with
    | String "-"%char r => (-1, r)
    | String "+"%char r => (1, r)
    | _ => (1, s0)
    end in
  let '(R, s2) :=
    match s1 with
    | String "0"%char (String "x"%char r) => (16, r)
    | String "0"%char (String "X"%char r) => (16, r)
    | _ => (10, s1)
    end in
  match parseDigits R s2 None with
  | Some n => Some (sign * n)
  | None => None
  end.

(** [ToString] of a string that may be [null]. *)
Definition ToString (o : option string) : string :=
  match o with
  | Some s => s
  | None => "null"
  end.

(** [String(x)] and [parseInt(x)] of a string that may be [undefined]. *)
Definition ToStringU (o : option string) : string :=
  match o with
  | Some s => s
  | None => "undefined"
  end.

(** [n || d] for a number [n]: NaN and 0 are falsy. *)
Definition orNum (n : option Z) (d : Z) : Z :=
  match n with
  | Some v => if v =? 0 then d else v
  | None => d
  end.

(** [n || null] for a number [n]; [None] is [null] in the result. *)
Definition orNull (n : option Z) : option Z :=
  match n with
  | Some v => if v =? 0 then None else Some v
  | None => None
  end.

(** [s || d] for a string [s] that may be [null]: both [null] and the
    empty string are falsy. *)
Definition orStr (s : option string) (d : string) : string :=
  match s with
  | Some EmptyString => d
  | Some v => v
  | None => d
  end.

(** String conversion of an integer, as in a template literal. *)
Definition numToString (n : Z) : string := pretty n.

(** [arr[i]] for an integer [i]: [undefined] out of range, also below 0. *)
Definition index {A} (arr : list A) (i : Z) : option A :=
  if i <? 0 then None else arr !! Z.to_nat i.

(** [Array.prototype.sort(compare)]: a stable sort; a comparator result
    of NaN counts as 0.  For a consistent comparator every stable sort
    returns this list. *)
Section Sort.
Context {A : Type} (compare : A -> A -> option Z).

Fixpoint insertSorted (x : A) (l : list A) : list A :=
  match l with
  | [] => [x]
  | y :: l' =>
      if 0 <? default 0 (compare x y) then y :: insertSorted x l'
      else x :: l
  end.

Definition sort (l : list A) : list A := foldr insertSorted [] l.
End Sort.

(** [String.prototype.toLowerCase] on 8-bit code units: A-Z, and the
    upper-case letters of Latin-1 (all of 192-222 but the sign at 215). *)
Definition lowerChar (c : ascii) : ascii :=
  let n := Z.of_N (Ascii.N_of_ascii c) in
  if (65 <=? n) && (n <=? 90) ||
     (192 <=? n) && (n <=? 222) && negb (n =? 215)
  then Ascii.ascii_of_N (Z.to_N (n + 32))
  else c.

Fixpoint toLowerCase (s : string) : string :=
  match s with
  | String c s' => String (lowerChar c) (toLowerCase s')
  | EmptyString => EmptyString
  end.

End JS.

(** ** The DOM, as far as the parser walks it *)

Module DOM.

#[warnings="-register-all"]
Inductive Element : Type :=
  Elem { tagName : string;
         attributes : list (string * string);
         children : list Element }.

(** A document is its document element.  A text that is not well formed
    parses to a document that holds a [parsererror] element. *)
Record Document : Type := Doc { documentElement : Element }.

(** [null] when the attribute is absent. *)
Definition getAttribute (e : Element) (name : string) : option string :=
  snd <$> List.find (fun a => String.eqb (fst a) name) (attributes e).

(** The descendants of an element in document order, each with its parent
    element. *)
Fixpoint descendants (p : Element) : list (option Element * Element) :=
  flat_map (fun c => (Some p, c) :: descendants c) (children p).

(** The two shapes of selector the parser uses: a tag name, and
    [parent > child]. *)
Inductive Selector : Type :=
| Tag (t : string)
| Child (parent child : string).

Definition matches (sel : Selector) (n : option Element * Element) : bool :=
  match sel with
  | Tag t => String.eqb (tagName (snd n)) t
  | Child p c =>
      String.eqb (tagName (snd n)) c &&
      match fst n with
      | Some e => String.eqb (tagName e) p
      | None => false
      end
  end.

(** What a query on a node ranges over: the descendants of an element; for
    a document also the document element, which has no parent element. *)
Class ParentNode (Node : Type) :=
  scope : Node -> list (option Element * Element).

#[export] Instance Element_ParentNode : ParentNode Element := descendants.
#[export] Instance Document_ParentNode : ParentNode Document :=
  fun d => (None, documentElement d) :: descendants (documentElement d).

Definition querySelectorAll `{ParentNode Node} (n : Node) (sel : Selector)
  : list Element :=
  snd <$> filter (fun x => matches sel x = true) (scope n).

Definition querySelector `{ParentNode Node} (n : Node) (sel : Selector)
  : option Element :=
  head (querySelectorAll n sel).

Definition getElementsByTagName `{ParentNode Node} (n : Node) (t : string)
  : list Element :=
  querySelectorAll n (Tag t).

End DOM.

(** ** js/enums.js *)

Module Enums.

Inductive N2kDirection : Type := NONE | TRANSMIT | RECEIVE.

Definition name (d : N2kDirection) : string :=
  match d with
  | NONE => ""
  | TRANSMIT => "transmit"
  | RECEIVE => "receive"
  end.

Definition id (d : N2kDirection) : Z :=
  match d with
  | NONE => -1
  | TRANSMIT => 0
  | RECEIVE => 1
  end.

(** The argument is a number or [null]. *)
Definition fromId (i : option Z) : N2kDirection :=
  match i with
  | Some 0 => TRANSMIT
  | Some 1 => RECEIVE
  | _ => NONE
  end.

(** The channel direction. *)
Module Direction.

Inductive t : Type := NONE | BOTH | INPUT | OUTPUT.

Definition name (d : t) : string :=
  match d with
  | NONE => ""
  | BOTH => "both"
  | INPUT => "input"
  | OUTPUT => "output"
  end.

Definition id (d : t) : Z :=
  match d with
  | NONE => -1
  | BOTH => 0
  | INPUT => 1
  | OUTPUT => 2
  end.

(** [str] may be [null] or [undefined]: [None]. *)
Definition fromString (str : option string) : t :=
  let normalized := JS.orStr (JS.toLowerCase <$> str) "" in
  if String.eqb normalized "both" then BOTH
  else if String.eqb normalized "input" then INPUT
  else if String.eqb normalized "output" then OUTPUT
  else NONE.

(** The argument is a number or [null]. *)
Definition fromId (i : option Z) : t :=
  match i with
  | Some 0 => BOTH
  | Some 1 => INPUT
  | Some 2 => OUTPUT
  | _ => NONE
  end.

Definition toString (d : t) : string := name d.

End Direction.

End Enums.

(** A property as [parseProperties] returns it: [{id, value}]. *)
Module Property.
Record t : Type := mk { id : Z; value : string }.
End Property.

(** ** js/component-decoder.js *)

Module ComponentDecoder.
Import JS.

Definition FLUID_TYPES : list string :=
  ["fuel"; "fresh water"; "waste water"; "live well"; "oil"; "black water"].

Definition TEMPERATURE_SOURCES : list string :=
  ["sea"; "outside"; "inside"; "engine room"; "main cabin"; "live well";
   "bait well"; "refridgeration"; "heating system"; "dew point";
   "wind chill apparent"; "wind chill theoretical"; "heat index"; "freezer"].

Definition J1939_PGNS : list Z :=
  [65014; 65027; 65011; 65008;
   65024; 65021; 65017; 65030;
   65004; 65003; 65002; 65001].

(** The component object handed to [decodeComponent]; [componentId] is the
    result of a [parseInt], so it may be NaN; [None] is [null] in the
    other two fields. *)
Module Component.
Record t : Type :=
  mk { componentId : option Z; channelId : option Z; unitId : option Z }.
End Component.

(** The decoded record.  [None] is [null] in [instance] and [device], and
    [undefined] in [pgn] and [id], which are read from arrays. *)
Module Decoded.
Record t : Type :=
  mk { name : string;
       pgn : option Z;
       instance : option Z;
       id : option string;
       direction : Enums.N2kDirection;
       device : option Z }.
End Decoded.

(** The property map: property id to parsed value, [None] being [null]. *)
Definition createPropertyMap (properties : list Property.t)
  : gmap Z (option Z) :=
  foldl (fun map prop =>
           let value := parseInt (Property.value prop) in
           <[Property.id prop := value]> map)
        ∅ properties.

(** [props.get(id) ?? null] *)
Definition getProperty (props : gmap Z (option Z)) (id : Z) : option Z :=
  match props !! id with
  | Some v => v
  | None => None
  end.

Definition createEmptyResult : Decoded.t :=
  {| Decoded.name := "";
     Decoded.pgn := Some 0;
     Decoded.instance := None;
     Decoded.id := Some "";
     Decoded.direction := Enums.NONE;
     Decoded.device := None |}.

Definition decodeFluidLevel (props : gmap Z (option Z)) : Decoded.t :=
  let fluidType := getProperty props 1 in
  (* [undefined] for a negative type, which is below the length *)
  let fluidName :=
    match fluidType with
    | Some i =>
        if i <? Z.of_nat (length FLUID_TYPES) then index FLUID_TYPES i else Some "unknown"
    | None => Some "unknown"
    end in
  {| Decoded.name := "Fluid Level";
     Decoded.pgn := Some 127505;
     Decoded.instance := getProperty props 0;
     Decoded.id := fluidName;
     Decoded.direction := Enums.fromId (getProperty props 2);
     Decoded.device := None |}.

Definition decodeBinarySwitch (props : gmap Z (option Z)) : Decoded.t :=
  let switchNumber := getProperty props 1 in
  {| Decoded.name := "Binary Switch";
     Decoded.pgn := Some 127501;
     Decoded.instance := getProperty props 0;
     Decoded.id :=
       Some match switchNumber with
            | Some n => numToString (n + 1)
            | None => ""
            end;
     Decoded.direction := Enums.fromId (getProperty props 5);
     Decoded.device := None |}.

Definition decodeBinaryIndicator (props : gmap Z (option Z)) : Decoded.t :=
  let indicatorNumber := getProperty props 1 in
  {| Decoded.name := "Binary Indicator";
     Decoded.pgn := Some 127501;
     Decoded.instance := getProperty props 0;
     Decoded.id :=
       Some match indicatorNumber with
            | Some n => numToString (n + 1)
            | None => ""
            end;
     Decoded.direction := Enums.fromId (getProperty props 2);
     Decoded.device := None |}.

Definition decodeTemperature (props : gmap Z (option Z)) : Decoded.t :=
  let sourceType := getProperty props 1 in
  let sourceName :=
    match sourceType with
    | Some i =>
        if i <? Z.of_nat (length TEMPERATURE_SOURCES) then index TEMPERATURE_SOURCES i else Some "unknown"
    | None => Some "unknown"
    end in
  {| Decoded.name := "Temperature";
     Decoded.pgn := Some 130312;
     Decoded.instance := getProperty props 0;
     Decoded.id := sourceName;
     Decoded.direction := Enums.fromId (getProperty props 5);
     Decoded.device := None |}.

Definition decodeSwitchControl (props : gmap Z (option Z)) : Decoded.t :=
  let switchNumber := getProperty props 2 in
  {| Decoded.name := "Switch Control";
     Decoded.pgn := Some 127502;
     Decoded.instance := getProperty props 1;
     Decoded.id :=
       Some match switchNumber with
            | Some n => numToString (n + 1)
            | None => ""
            end;
     Decoded.direction := Enums.fromId (getProperty props 0);
     Decoded.device := None |}.

Definition decodeJ1939AcPgn (props : gmap Z (option Z)) : Decoded.t :=
  let pgnType := getProperty props 1 in
  let pgn :=
    match pgnType with
    | Some i =>
        if i <? Z.of_nat (length J1939_PGNS) then index J1939_PGNS i else Some 0
    | None => Some 0
    end in
  {| Decoded.name := "J1939 AC PGN";
     Decoded.pgn := pgn;
     Decoded.instance := None;
     Decoded.id := Some "";
     Decoded.direction := Enums.NONE;
     Decoded.device := getProperty props 0 |}.

Definition decodeProprietaryPgn (props : gmap Z (option Z)) : Decoded.t :=
  {| Decoded.name := "Proprietary PGN";
     Decoded.pgn := Some 65280;
     Decoded.instance := getProperty props 2;
     Decoded.id := Some "";
     Decoded.direction := Enums.fromId (getProperty props 0);
     Decoded.device := None |}.

(** The registry: component id to decoder. *)
Definition COMPONENT_DECODERS : gmap Z (gmap Z (option Z) -> Decoded.t) :=
  list_to_map
    [(1283, decodeFluidLevel);
     (1281, decodeBinarySwitch);
     (1282, decodeBinaryIndicator);
     (1285, decodeTemperature);
     (1291, decodeSwitchControl);
     (1376, decodeJ1939AcPgn);
     (1361, decodeProprietaryPgn)].

(** A NaN component id is no key of the registry. *)
Definition decodeComponent (component : Component.t)
           (properties : list Property.t) : Decoded.t :=
  match Component.componentId component ≫= (COMPONENT_DECODERS !!.) with
  | None => createEmptyResult
  | Some decoder =>
      let propertyMap := createPropertyMap properties in
      decoder propertyMap
  end.

End ComponentDecoder.

(** ** js/channel-decoder.js *)

Module ChannelDecoder.
Import JS.

(** An entry of a settings table: [{type, subtype}] or
    [{type, subtypeMap}]; [None] is an absent field. *)
Module Config.
Record t : Type :=
  mk { type : string;
       subtype : option string;
       subtypeMap : option (gmap Z string) }.
End Config.

Definition INPUT_MAIN_SETTINGS : gmap Z Config.t :=
  list_to_map
    [(1, Config.mk "digital input" (Some "standard") None);
     (57, Config.mk "digital input" None (Some (list_to_map
        [(1, "closes to minus");
         (2, "closes to plus");
         (4, "closes to common");
         (6, "closes to plus weak pulldown");
         (7, "measure input frequency")])));
     (64, Config.mk "analog input" None (Some (list_to_map
        [(1, "voltage signal");
         (2, "4-20 mA");
         (4, "0-1500 Ohm");
         (5, "multiswitch");
         (6, "firealarm (constant power)");
         (7, "multiswitch (68Ohm +/- 1%)");
         (8, "dual fixed multiswitch");
         (9, "temp sensor ohm")])));
     (54, Config.mk "window wiper feedback" None (Some (list_to_map
        [(1, "closes to minus in parking");
         (2, "open in parking")])))].

Definition OUTPUT_MAIN_SETTINGS : gmap Z Config.t :=
  list_to_map
    [(1, Config.mk "digital output" (Some "standard") None);
     (48, Config.mk "digital output +" None (Some (list_to_map
        [(1, "normal");
         (2, "open load detection");
         (3, "open load detection at turn on")])));
     (49, Config.mk "digital output -" None (Some (list_to_map
        [(1, "normal")])));
     (52, Config.mk "commonline" None (Some (list_to_map
        [(0, "normal")])));
     (53, Config.mk "half bridge output +/-" None (Some (list_to_map
        [(0, "normal half bridge")])));
     (55, Config.mk "window wiper" None (Some (list_to_map
        [(1, "connection #1 with diode");
         (2, "connection #1 no diode");
         (3, "connection #2 with diode");
         (4, "connection #2 no diode")])));
     (65, Config.mk "signal drive (max 50mA)" None (Some (list_to_map
        [(0, "positive drive");
         (1, "negative drive")])))].

(** The channel object, with the four setting ids as [parseChannels]
    stores them: the attribute text, or the empty string. *)
Module Channel.
Record t : Type :=
  mk { number : string;
       name : string;
       direction : string;
       inMainChannelSettingId : string;
       inChannelSettingId : string;
       outMainChannelSettingId : string;
       outChannelSettingId : string }.
End Channel.

Module Settings.
Record t : Type := mk { type : string; subtype : string }.
End Settings.

Record Decoded : Type := { input : Settings.t; output : Settings.t }.

Definition decodeInputSettings (mainId subId : Z) : Settings.t :=
  match INPUT_MAIN_SETTINGS !! mainId with
  | None =>
      {| Settings.type := ":unknown:" +:+ numToString mainId;
         Settings.subtype := ":unknown:" +:+ numToString subId |}
  | Some config =>
      (* a fixed subtype, when the entry has a non-empty one *)
      match Config.subtype config with
      | Some (String c s) =>
          {| Settings.type := Config.type config;
             Settings.subtype := String c s |}
      | _ =>
          let subtype := Config.subtypeMap config ≫= (.!! subId) in
          {| Settings.type := Config.type config;
             Settings.subtype :=
               orStr subtype (":unknown:" +:+ numToString subId) |}
      end
  end.

Definition decodeOutputSettings (mainId subId : Z) : Settings.t :=
  if mainId =? -1 then
    {| Settings.type := ":unknown:"; Settings.subtype := ":unknown:" |}
  else
    match OUTPUT_MAIN_SETTINGS !! mainId with
    | None =>
        {| Settings.type := ":unknown:" +:+ numToString mainId;
           Settings.subtype := ":unknown:" +:+ numToString subId |}
    | Some config =>
        match Config.subtype config with
        | Some (String c s) =>
            {| Settings.type := Config.type config;
               Settings.subtype := String c s |}
        | _ =>
            let subtype := Config.subtypeMap config ≫= (.!! subId) in
            {| Settings.type := Config.type config;
               Settings.subtype :=
                 orStr subtype (":unknown:" +:+ numToString subId) |}
        end
    end.

Definition decodeChannelSettings (channel : Channel.t) : Decoded :=
  let mainInId := orNum (parseInt (Channel.inMainChannelSettingId channel)) 0 in
  let subInId := orNum (parseInt (Channel.inChannelSettingId channel)) 0 in
  let mainOutId := orNum (parseInt (Channel.outMainChannelSettingId channel)) (-1) in
  let subOutId := orNum (parseInt (Channel.outChannelSettingId channel)) (-1) in
  {| input := decodeInputSettings mainInId subInId;
     output := decodeOutputSettings mainOutId subOutId |}.

End ChannelDecoder.

(** ** What the browser provides

    [DOMParser.parseFromString(text, 'text/xml')], which returns a document
    for every text, and [String.prototype.localeCompare], whose order is
    the host's collation. *)

Class Browser : Type :=
  { parseFromString : string -> DOM.Document;
    localeCompare : string -> string -> Z }.

(** The outcome of a function that may [throw new Error(message)]. *)
Inductive Completion (A : Type) : Type :=
| Return (a : A)
| Throw (message : string).
Arguments Return {A} a.
Arguments Throw {A} message.

(** ** js/parser.js *)

Module Parser.
Import JS DOM.
Module Channel := ChannelDecoder.Channel.

Module ChannelGroup.
Record t : Type := mk { groupId : string; channels : list Channel.t }.
End ChannelGroup.

Module Unit.
Record t : Type :=
  mk { id : string;
       serial : string;
       name : string;
       unitTypeId : string;
       standardUnitVariantNumber : string;
       channels : list ChannelGroup.t }.
End Unit.

(** The object [parseChannels] pushes for a [channel] element. *)
Definition channelData (channel : Element) : Channel.t :=
  {| Channel.number := orStr (getAttribute channel "number") "N/A";
     Channel.name := orStr (getAttribute channel "name") "N/A";
     Channel.direction := orStr (getAttribute channel "direction") "N/A";
     Channel.inMainChannelSettingId :=
       orStr (getAttribute channel "inMainChannelSettingId") "";
     Channel.inChannelSettingId :=
       orStr (getAttribute channel "inChannelSettingId") "";
     Channel.outMainChannelSettingId :=
       orStr (getAttribute channel "outMainChannelSettingId") "";
     Channel.outChannelSettingId :=
       orStr (getAttribute channel "outChannelSettingId") "" |}.

Definition parseChannels (unitElement : Element) : list ChannelGroup.t :=
  let groupElements := getElementsByTagName unitElement "unitChannelGroup" in
  (fun group =>
     let channelElements := getElementsByTagName group "channel" in
     {| ChannelGroup.groupId :=
          orStr (getAttribute group "channelGroupId") "N/A";
        ChannelGroup.channels := channelData <$> channelElements |})
  <$> groupElements.

(** The object [parseUnits] pushes for a [unit] element. *)
Definition unitData (unit : Element) : Unit.t :=
  {| Unit.id := orStr (getAttribute unit "id") "N/A";
     Unit.serial := orStr (getAttribute unit "serial") "N/A";
     Unit.name := orStr (getAttribute unit "name") "N/A";
     Unit.unitTypeId := orStr (getAttribute unit "unitTypeId") "N/A";
     Unit.standardUnitVariantNumber :=
       orStr (getAttribute unit "standardUnitVariantNumber") "N/A";
     Unit.channels := parseChannels unit |}.

Definition parseUnits `{Browser} (xmlString : string)
  : Completion (list Unit.t) :=
  let xmlDoc := parseFromString xmlString in
  match querySelector xmlDoc (Tag "parsererror") with
  | Some _ => Throw "Invalid XML format"
  | None =>
      match querySelector xmlDoc (Tag "units") with
      | None => Throw "No units container found in the EBP file"
      | Some unitsContainer =>
          (* direct children only, not nested ones *)
          let unitElements :=
            filter (fun el => tagName el = "unit") (children unitsContainer) in
          let units := unitData <$> unitElements in
          if Nat.eqb (length units) 0
          then Throw "No units found in the EBP file"
          else Return units
      end
  end.

Module Validation.
Record t : Type := mk { isValid : bool; errors : list string }.
End Validation.

(** [errors.push(message)] when [cond] holds. *)
Definition pushIf (cond : bool) (message : string) (errors : list string)
  : list string :=
  if cond then errors ++ [message] else errors.

(** The [try] block has nothing that throws: [parseFromString] returns a
    document for every text.  The [catch] branch is not reached. *)
Definition validateEBP `{Browser} (xmlString : string) : Validation.t :=
  let errors := [] in
  let xmlDoc := parseFromString xmlString in
  match querySelector xmlDoc (Tag "parsererror") with
  | Some _ =>
      {| Validation.isValid := false;
         Validation.errors := errors ++ ["Invalid XML format"] |}
  | None =>
      let project := querySelector xmlDoc (Tag "project") in
      let errors :=
        pushIf (bool_decide (project = None))
               "Missing project root element" errors in
      let units := querySelector xmlDoc (Tag "units") in
      let errors :=
        pushIf (bool_decide (units = None)) "Missing units element" errors in
      let unitElements := getElementsByTagName xmlDoc "unit" in
      let errors :=
        pushIf (Nat.eqb (length unitElements) 0)
               "No units found in file" errors in
      {| Validation.isValid := Nat.eqb (length errors) 0;
         Validation.errors := errors |}
  end.

(** The object [parseProperties] pushes for a [property] element. *)
Definition propertyData (prop : Element) : Property.t :=
  {| Property.id := orNum (parseInt (ToString (getAttribute prop "id"))) (-1);
     Property.value := orStr (getAttribute prop "value") "" |}.

Definition parseProperties (element : Element) : list Property.t :=
  let propertyElements :=
    querySelectorAll element (Child "properties" "property") in
  propertyData <$> propertyElements.

(** The loop of [findMasterModuleBusId] over the unit elements. *)
Fixpoint scanUnits (unitElements : list Element) : Z :=
  match unitElements with
  | [] => -1
  | unit :: rest =>
      let unitTypeId :=
        orNum (parseInt (ToString (getAttribute unit "unitTypeId"))) 0 in
      (* master module types: 101, 100 *)
      if (unitTypeId =? 101) || (unitTypeId =? 100) then
        orNum (parseInt (ToString (getAttribute unit "id"))) (-1)
      else if
        bool_decide (unitTypeId ∈ [20; 1; 16; 4]) &&
        existsb (fun prop =>
                   (Property.id prop =? 2) &&
                   String.eqb (Property.value prop) "2")
                (parseProperties unit)
      then orNum (parseInt (ToString (getAttribute unit "id"))) (-1)
      else scanUnits rest
  end.

Definition findMasterModuleBusId (xmlDoc : Document) : Z :=
  let unitElements := querySelectorAll xmlDoc (Child "units" "unit") in
  scanUnits unitElements.

(** An entry of the array [parseComponents] returns.  [None] is
    [undefined] in [pgn] and [id], and [null] in [instance]. *)
Module Component.
Record t : Type :=
  mk { name : string;
       pgn : option Z;
       device : Z;
       instance : option Z;
       id : option string;
       direction : string;
       tabName : string }.
End Component.

(** What the callback of [componentElements.forEach] pushes: nothing for
    the alarm and memory types and for a component that decodes to an
    empty name. *)
Definition componentData (masterModuleBusId : Z) (tabName : string)
           (componentNode : Element) : list Component.t :=
  let componentId :=
    parseInt (ToString (getAttribute componentNode "componentId")) in
  if bool_decide (componentId = Some 1292) ||
     bool_decide (componentId = Some 2304)
  then []
  else
    let component :=
      {| ComponentDecoder.Component.componentId := componentId;
         ComponentDecoder.Component.channelId :=
           orNull (parseInt (ToString (getAttribute componentNode "channelId")));
         ComponentDecoder.Component.unitId :=
           orNull (parseInt (ToString (getAttribute componentNode "unitId"))) |} in
    let properties := parseProperties componentNode in
    let decoded := ComponentDecoder.decodeComponent component properties in
    match ComponentDecoder.Decoded.name decoded with
    | EmptyString => []
    | _ =>
        [ {| Component.name := ComponentDecoder.Decoded.name decoded;
             Component.pgn := ComponentDecoder.Decoded.pgn decoded;
             Component.device :=
               default masterModuleBusId
                       (ComponentDecoder.Decoded.device decoded);
             Component.instance := ComponentDecoder.Decoded.instance decoded;
             Component.id := ComponentDecoder.Decoded.id decoded;
             Component.direction :=
               Enums.name (ComponentDecoder.Decoded.direction decoded);
             Component.tabName := tabName |} ]
    end.

(** [x - y] where either side may be [undefined]: NaN then. *)
Definition subU (x y : option Z) : option Z :=
  match x, y with
  | Some a, Some b => Some (a - b)
  | _, _ => None
  end.

(** The comparator of the component sort; [None] is NaN. *)
Definition compareComponents `{Browser} (a b : Component.t) : option Z :=
  if bool_decide (Component.pgn a ≠ Component.pgn b)
  then subU (Component.pgn a) (Component.pgn b)
  else if bool_decide (Component.device a ≠ Component.device b)
  then Some (Component.device a - Component.device b)
  else if bool_decide (Component.instance a ≠ Component.instance b)
  then Some (default 0 (Component.instance a) - default 0 (Component.instance b))
  else
    (* by id, if numeric *)
    let aId := parseInt (ToStringU (Component.id a)) in
    let bId := parseInt (ToStringU (Component.id b)) in
    match aId, bId with
    | Some x, Some y => Some (x - y)
    | _, _ =>
        Some (localeCompare (ToStringU (Component.id a))
                            (ToStringU (Component.id b)))
    end.

Definition parseComponents `{Browser} (xmlString : string)
  : list Component.t :=
  let xmlDoc := parseFromString xmlString in
  let masterModuleBusId := findMasterModuleBusId xmlDoc in
  let schemaElements := querySelectorAll xmlDoc (Tag "schema") in
  let components :=
    flat_map
      (fun schema =>
         let tabName := orStr (getAttribute schema "name") "" in
         let componentElements :=
           querySelectorAll schema (Child "components" "component") in
         flat_map (componentData masterModuleBusId tabName) componentElements)
      schemaElements in
  JS.sort compareComponents components.

Module MemoryType.
Record t : Type := mk { name : string; bits : Z }.
End MemoryType.

Definition MEMORY_TYPES : gmap Z MemoryType.t :=
  list_to_map
    [(0, MemoryType.mk "Bit (1 Bit)" 1);
     (1, MemoryType.mk "UByte (8 Bit)" 8);
     (2, MemoryType.mk "UWord (16 Bit)" 16);
     (3, MemoryType.mk "UDWord (32 Bit)" 32)].

(** An entry of the array [parseMemory] returns.  [location] is what
    [propertyMap.get(1)] gave: [None] is [undefined], [Some None] is
    [null]. *)
Module Memory.
Record t : Type :=
  mk { type : string; location : option (option Z); bits : Z }.
End Memory.

(** The property map that [parseMemory] builds: a value that does not
    parse, and also the value 0, is stored as [null]. *)
Definition memoryPropertyMap (properties : list Property.t)
  : gmap Z (option Z) :=
  foldl (fun propertyMap prop =>
           <[Property.id prop := orNull (parseInt (Property.value prop))]>
             propertyMap)
        ∅ properties.

(** What the callback of [componentElements.forEach] pushes. *)
Definition memoryData (componentNode : Element) : list Memory.t :=
  let componentId :=
    parseInt (ToString (getAttribute componentNode "componentId")) in
  if bool_decide (componentId = Some 2304) then
    let properties := parseProperties componentNode in
    let propertyMap := memoryPropertyMap properties in
    let memType := propertyMap !! 0 in
    let memLocation := propertyMap !! 1 in
    let type :=
      default {| MemoryType.name := "unknown"; MemoryType.bits := 1 |}
              (mjoin memType ≫= (MEMORY_TYPES !!.)) in
    [ {| Memory.type := MemoryType.name type;
         Memory.location := memLocation;
         Memory.bits := MemoryType.bits type |} ]
  else [].

(** [ToNumber]: NaN for [undefined], 0 for [null]. *)
Definition toNumber (v : option (option Z)) : option Z :=
  match v with
  | None => None
  | Some None => Some 0
  | Some (Some n) => Some n
  end.

Definition compareMemory (a b : Memory.t) : option Z :=
  subU (toNumber (Memory.location a)) (toNumber (Memory.location b)).

Definition parseMemory `{Browser} (xmlString : string) : list Memory.t :=
  let xmlDoc := parseFromString xmlString in
  let componentElements := querySelectorAll xmlDoc (Tag "component") in
  let memory := flat_map memoryData componentElements in
  JS.sort compareMemory memory.

(** An entry of the array [parseAlarms] returns. *)
Module Alarm.
Record t : Type :=
  mk { schemaName : string;
       componentId : string;
       componentRevision : string;
       componentInstanceId : string;
       alarmId : string;
       alarmName : string }.
End Alarm.

(** The loop over the [property] elements of an alarm: the state is the
    pair of [alarmId] and [alarmName], both "N/A" at the start; the id of a
    property is compared as text. *)
Definition alarmFields (propertyElements : list Element) : string * string :=
  foldl (fun '(alarmId, alarmName) property =>
           let propertyId := getAttribute property "id" in
           if bool_decide (propertyId = Some "4")
           then (orStr (getAttribute property "value") "N/A", alarmName)
           else if bool_decide (propertyId = Some "31")
           then (alarmId, orStr (getAttribute property "value") "N/A")
           else (alarmId, alarmName))
        ("N/A", "N/A") propertyElements.

(** What the body of the loop over the [component] elements pushes. *)
Definition alarmData (schemaName : string) (component : Element)
  : list Alarm.t :=
  let componentId := getAttribute component "componentId" in
  if bool_decide (componentId = Some "1292") then
    let componentRevision :=
      orStr (getAttribute component "componentRevision") "N/A" in
    let id := orStr (getAttribute component "id") "N/A" in
    match querySelector component (Tag "properties") with
    | Some propertiesElement =>
        let propertyElements :=
          getElementsByTagName propertiesElement "property" in
        let '(alarmId, alarmName) := alarmFields propertyElements in
        if bool_decide (alarmId <> "N/A") || bool_decide (alarmName <> "N/A")
        then [ {| Alarm.schemaName := schemaName;
                  Alarm.componentId := "1292";
                  Alarm.componentRevision := componentRevision;
                  Alarm.componentInstanceId := id;
                  Alarm.alarmId := alarmId;
                  Alarm.alarmName := alarmName |} ]
        else []
    | None => []
    end
  else [].

(** The alarms in the order the loops push them, before the sort. *)
Definition collectAlarms (xmlDoc : Document) : list Alarm.t :=
  let schemaElements := getElementsByTagName xmlDoc "schema" in
  flat_map
    (fun schema =>
       let schemaName := orStr (getAttribute schema "name") "Unknown" in
       match querySelector schema (Tag "components") with
       | None => []
       | Some componentsContainer =>
           let componentElements :=
             getElementsByTagName componentsContainer "component" in
           flat_map (alarmData schemaName) componentElements
       end)
    schemaElements.

Definition compareAlarms (a b : Alarm.t) : option Z :=
  let idA := orNum (parseInt (Alarm.alarmId a)) 0 in
  let idB := orNum (parseInt (Alarm.alarmId b)) 0 in
  Some (idA - idB).

Definition parseAlarms `{Browser} (xmlString : string) : list Alarm.t :=
  let xmlDoc := parseFromString xmlString in
  let alarms := collectAlarms xmlDoc in
  JS.sort compareAlarms alarms.

Module Metadata.
Record t : Type :=
  mk { firmware : string;
       fileFormatVersion : string;
       savedAtUtc : string;
       formatVersion : string;
       studioVersion : string }.
End Metadata.


Module Schema.
Record t : Type := mk { id : Z; name : string; sortIndex : Z }.
End Schema.

(** The object [parseSchemas] pushes for a [schema] element. *)
Definition schemaData (schema : Element) : Schema.t :=
  {| Schema.id := orNum (parseInt (ToString (getAttribute schema "id"))) 0;
     Schema.name := orStr (getAttribute schema "name") "";
     Schema.sortIndex :=
       orNum (parseInt (ToString (getAttribute schema "sortIndex"))) 0 |}.

Definition compareSchemas (a b : Schema.t) : option Z :=
  Some (Schema.sortIndex a - Schema.sortIndex b).

Definition parseSchemas `{Browser} (xmlString : string) : list Schema.t :=
  let xmlDoc := parseFromString xmlString in
  let schemaElements := querySelectorAll xmlDoc (Child "schemas" "schema") in
  let schemas := schemaData <$> schemaElements in
  JS.sort compareSchemas schemas.

End Parser.

(** ** js/utils.js *)

Module Utils.

Module Statistics.
Record t : Type :=
  mk { totalUnits : Z;
       totalChannels : Z;
       inputChannels : Z;
       outputChannels : Z;
       bothChannels : Z }.
End Statistics.

(** The body of the innermost [forEach] of [getStatistics]: the state is
    the four counters, in the order total, input, output, both. *)
Definition countChannel (counters : Z * Z * Z * Z)
           (channel : ChannelDecoder.Channel.t) : Z * Z * Z * Z :=
  let '(totalChannels, inputChannels, outputChannels, bothChannels) :=
    counters in
  let totalChannels := totalChannels + 1 in
  let direction := ChannelDecoder.Channel.direction channel in
  if String.eqb direction "Input"
  then (totalChannels, inputChannels + 1, outputChannels, bothChannels)
  else if String.eqb direction "Output"
  then (totalChannels, inputChannels, outputChannels + 1, bothChannels)
  else if String.eqb direction "Both"
  then (totalChannels, inputChannels, outputChannels, bothChannels + 1)
  else (totalChannels, inputChannels, outputChannels, bothChannels).

Definition getStatistics (units : list Parser.Unit.t) : Statistics.t :=
  let '(totalChannels, inputChannels, outputChannels, bothChannels) :=
    foldl (fun counters unit =>
             foldl (fun counters group =>
                      foldl countChannel counters
                            (Parser.ChannelGroup.channels group))
                   counters (Parser.Unit.channels unit))
          (0, 0, 0, 0) units in
  {| Statistics.totalUnits := Z.of_nat (length units);
     Statistics.totalChannels := totalChannels;
     Statistics.inputChannels := inputChannels;
     Statistics.outputChannels := outputChannels;
     Statistics.bothChannels := bothChannels |}.

End Utils.

(** ** js/modules.js *)

Module Modules.

(** An entry of the bill of materials. *)
Module Bom.
Record t : Type :=
  mk { productNumber : string;
       standardUnitVariantNumber : string;
       quantity : Z;
       serial : string;
       unitTypeId : string }.
End Bom.

(** [bomMap] is a [Map] with string keys, which keeps the order in which
    the keys were first set: a list of key and entry. *)
Definition has (key : string) (bomMap : list (string * Bom.t)) : bool :=
  existsb (fun kv => String.eqb (fst kv) key) bomMap.

(** [bomMap.get(key).quantity++] *)
Fixpoint increment (key : string) (bomMap : list (string * Bom.t))
  : list (string * Bom.t) :=
  match bomMap with
  | [] => []
  | (k, entry) :: rest =>
      if String.eqb k key
      then (k, {| Bom.productNumber := Bom.productNumber entry;
                  Bom.standardUnitVariantNumber :=
                    Bom.standardUnitVariantNumber entry;
                  Bom.quantity := Bom.quantity entry + 1;
                  Bom.serial := Bom.serial entry;
                  Bom.unitTypeId := Bom.unitTypeId entry |}) :: rest
      else (k, entry) :: increment key rest
  end.

(** The body of [units.forEach] in [generateBOM]. *)
Definition addUnit (bomMap : list (string * Bom.t)) (unit : Parser.Unit.t)
  : list (string * Bom.t) :=
  let key :=
    Parser.Unit.name unit +:+ "|" +:+
    JS.orStr (Some (Parser.Unit.standardUnitVariantNumber unit)) "" in
  if has key bomMap then increment key bomMap
  else
    bomMap ++
    [(key,
      {| Bom.productNumber := Parser.Unit.name unit;
         Bom.standardUnitVariantNumber :=
           JS.orStr (Some (Parser.Unit.standardUnitVariantNumber unit)) "N/A";
         Bom.quantity := 1;
         Bom.serial := JS.orStr (Some (Parser.Unit.serial unit)) "0";
         Bom.unitTypeId := JS.orStr (Some (Parser.Unit.unitTypeId unit)) "N/A" |})].

Definition generateBOM `{Browser} (units : list Parser.Unit.t) : list Bom.t :=
  let bomMap := foldl addUnit [] units in
  JS.sort (fun a b =>
             Some (localeCompare (Bom.productNumber a) (Bom.productNumber b)))
          (snd <$> bomMap).

End Modules.

(** ** Vocabulary of the statements *)

(** A browser whose parser returns the given document for every text. *)
Definition browserOf (xmlDoc : DOM.Document) : Browser :=
  {| parseFromString := fun _ => xmlDoc;
     localeCompare := fun _ _ => 0 |}.

(** The two sides of a channel, and for each side the codes that
    [decodeChannelSettings] computes, its table and its decoded pair. *)
Inductive Side : Type := InputSide | OutputSide.

Definition mainCode (side : Side) (channel : ChannelDecoder.Channel.t) : Z :=
  match side with
  | InputSide =>
      JS.orNum (JS.parseInt
                  (ChannelDecoder.Channel.inMainChannelSettingId channel)) 0
  | OutputSide =>
      JS.orNum (JS.parseInt
                  (ChannelDecoder.Channel.outMainChannelSettingId channel)) (-1)
  end.

Definition subCode (side : Side) (channel : ChannelDecoder.Channel.t) : Z :=
  match side with
  | InputSide =>
      JS.orNum (JS.parseInt
                  (ChannelDecoder.Channel.inChannelSettingId channel)) 0
  | OutputSide =>
      JS.orNum (JS.parseInt
                  (ChannelDecoder.Channel.outChannelSettingId channel)) (-1)
  end.

Definition settingsTable (side : Side) : gmap Z ChannelDecoder.Config.t :=
  match side with
  | InputSide => ChannelDecoder.INPUT_MAIN_SETTINGS
  | OutputSide => ChannelDecoder.OUTPUT_MAIN_SETTINGS
  end.

Definition decodedSide (side : Side) (channel : ChannelDecoder.Channel.t)
  : ChannelDecoder.Settings.t :=
  match side with
  | InputSide =>
      ChannelDecoder.input (ChannelDecoder.decodeChannelSettings channel)
  | OutputSide =>
      ChannelDecoder.output (ChannelDecoder.decodeChannelSettings channel)
  end.

(** The channel with its out-main attribute text replaced. *)
Definition withOutMain (text : string) (channel : ChannelDecoder.Channel.t)
  : ChannelDecoder.Channel.t :=
  {| ChannelDecoder.Channel.number := ChannelDecoder.Channel.number channel;
     ChannelDecoder.Channel.name := ChannelDecoder.Channel.name channel;
     ChannelDecoder.Channel.direction :=
       ChannelDecoder.Channel.direction channel;
     ChannelDecoder.Channel.inMainChannelSettingId :=
       ChannelDecoder.Channel.inMainChannelSettingId channel;
     ChannelDecoder.Channel.inChannelSettingId :=
       ChannelDecoder.Channel.inChannelSettingId channel;
     ChannelDecoder.Channel.outMainChannelSettingId := text;
     ChannelDecoder.Channel.outChannelSettingId :=
       ChannelDecoder.Channel.outChannelSettingId channel |}.

(** The pair that stands for an output that is not configured. *)
Definition noOutput : ChannelDecoder.Settings.t :=
  {| ChannelDecoder.Settings.type := ":unknown:";
     ChannelDecoder.Settings.subtype := ":unknown:" |}.

(** The units that [findMasterModuleBusId] accepts: rule (a), a unit type
    of 101 or 100; rule (b), a unit type among 20, 1, 16 and 4 with a
    property of id 2 and value "2". *)
Definition isMaster (unit : DOM.Element) : bool :=
  let unitTypeId :=
    JS.orNum (JS.parseInt (JS.ToString (DOM.getAttribute unit "unitTypeId"))) 0 in
  (unitTypeId =? 101) || (unitTypeId =? 100) ||
  bool_decide (unitTypeId ∈ [20; 1; 16; 4]) &&
  existsb (fun prop =>
             (Property.id prop =? 2) && String.eqb (Property.value prop) "2")
          (Parser.parseProperties unit).

(** The component order of the specification, in its words: ascending by
    PGN, then device id, then instance with an absent one as 0, then label,
    two labels that both parse as integers by their numbers and any other
    two lexicographically by code unit. *)
Definition labelBefore (x y : option string) : Prop :=
  match JS.parseInt (JS.ToStringU x), JS.parseInt (JS.ToStringU y) with
  | Some m, Some n => m < n
  | _, _ => String.compare (JS.ToStringU x) (JS.ToStringU y) = Lt
  end.

Definition specBefore (a b : Parser.Component.t) : Prop :=
  let pgn c := default 0 (Parser.Component.pgn c) in
  let device c := Parser.Component.device c in
  let instance c := default 0 (Parser.Component.instance c) in
  pgn a < pgn b \/
  pgn a = pgn b /\
  (device a < device b \/
   device a = device b /\
   (instance a < instance b \/
    instance a = instance b /\
    labelBefore (Parser.Component.id a) (Parser.Component.id b))).

(** Documents of the examples. *)

Definition property (id value : string) : DOM.Element :=
  DOM.Elem "property" [("id", id); ("value", value)] [].

Definition component (componentId : string) (properties : list DOM.Element)
  : DOM.Element :=
  DOM.Elem "component" [("componentId", componentId)]
           [DOM.Elem "properties" [] properties].

(** One stored memory value of type code 1 at location 16:
    <project><component componentId="2304"><properties>
    <property id="0" value="1"/><property id="1" value="16"/>
    </properties></component></project>. *)
Definition memoryDoc : DOM.Document :=
  DOM.Doc (DOM.Elem "project" []
    [component "2304" [property "0" "1"; property "1" "16"]]).

(** One master module, of unit type 101, whose id is 0:
    <project><units><unit id="0" unitTypeId="101"/></units></project>. *)
Definition masterZeroDoc : DOM.Document :=
  DOM.Doc (DOM.Elem "project" []
    [DOM.Elem "units" []
       [DOM.Elem "unit" [("id", "0"); ("unitTypeId", "101")] []]]).



(** Two switch controls in one schema: the first with instance 0 and
    switch 5, the second with no instance and switch 0:
    <project><schemas><schema name="Main"><components>
    <component componentId="1291"><properties><property id="1" value="0"/>
    <property id="2" value="5"/></properties></component>
    <component componentId="1291"><properties><property id="2" value="0"/>
    </properties></component></components></schema></schemas></project>. *)
Definition switchControlDoc : DOM.Document :=
  DOM.Doc (DOM.Elem "project" []
    [DOM.Elem "schemas" []
       [DOM.Elem "schema" [("name", "Main")]
          [DOM.Elem "components" []
             [component "1291" [property "1" "0"; property "2" "5"];
              component "1291" [property "2" "0"]]]]]).

Definition switchWithInstance : Parser.Component.t :=
  {| Parser.Component.name := "Switch Control";
     Parser.Component.pgn := Some 127502;
     Parser.Component.device := -1;
     Parser.Component.instance := Some 0;
     Parser.Component.id := Some "6";
     Parser.Component.direction := "";
     Parser.Component.tabName := "Main" |}.

Definition switchWithoutInstance : Parser.Component.t :=
  {| Parser.Component.name := "Switch Control";
     Parser.Component.pgn := Some 127502;
     Parser.Component.device := -1;
     Parser.Component.instance := None;
     Parser.Component.id := Some "1";
     Parser.Component.direction := "";
     Parser.Component.tabName := "Main" |}.

(** The number by which [parseAlarms] orders an alarm. *)
Definition alarmNumber (a : Parser.Alarm.t) : Z :=
  JS.orNum (JS.parseInt (Parser.Alarm.alarmId a)) 0.


(** All channels of a list of units, unit by unit and group by group. *)
Definition allChannels (units : list Parser.Unit.t)
  : list ChannelDecoder.Channel.t :=
  flat_map (fun unit =>
              flat_map Parser.ChannelGroup.channels (Parser.Unit.channels unit))
           units.

(** The number of channels with the given direction text. *)
Definition countDirection (direction : string)
           (channels : list ChannelDecoder.Channel.t) : Z :=
  Z.of_nat (length (filter (fun channel =>
                              ChannelDecoder.Channel.direction channel = direction)
                           channels)).

(** The sum of the quantities of a bill of materials. *)
Definition totalQuantity (bom : list Modules.Bom.t) : Z :=
  foldr (fun entry total => Modules.Bom.quantity entry + total) 0 bom.

(** The name and PGN of the component types whose PGN is fixed. *)
Definition fixedComponents : gmap Z (string * Z) :=
  list_to_map
    [(1283, ("Fluid Level", 127505));
     (1281, ("Binary Switch", 127501));
     (1282, ("Binary Indicator", 127501));
     (1285, ("Temperature", 130312));
     (1291, ("Switch Control", 127502));
     (1361, ("Proprietary PGN", 65280))].

(** The label or PGN that a decoder reads from a table by a property:
    the default for an absent property and past the end of the table,
    [undefined] below 0. *)
Definition tableEntry {A} (table : list A) (dflt : A) (v : option Z)
  : option A :=
  match v with
  | None => Some dflt
  | Some i =>
      if i <? 0 then None
      else if i <? Z.of_nat (length table) then table !! Z.to_nat i
      else Some dflt
  end.

(** The sum of the quantities held in the map of [generateBOM]. *)
Definition mapQuantity (bomMap : list (string * Modules.Bom.t)) : Z :=
  totalQuantity (snd <$> bomMap).

(** What holds of every entry of the two settings tables: its type is not
    empty, nor is any label of its subtype map. *)
Definition entryLabelled (config : ChannelDecoder.Config.t) : Prop :=
  ChannelDecoder.Config.type config <> "" /\
  forall (subtypeMap : gmap Z string) (subId : Z) (label : string),
    ChannelDecoder.Config.subtypeMap config = Some subtypeMap ->
    subtypeMap !! subId = Some label -> label <> "".

(** * Properties *)

Import JS DOM.

(** ** The component decoder *)

Section ComponentDecoderFacts.
Import ComponentDecoder.

(** The registry holds the seven type codes of the source and no other. *)
Lemma registry_none (c : Z) :
  c ∉ [1283; 1281; 1282; 1285; 1291; 1376; 1361] ->
  COMPONENT_DECODERS !! c = None.
Proof.
  intros Hc. unfold COMPONENT_DECODERS.
  apply not_elem_of_list_to_map_1. exact Hc.
Qed.

Lemma registry_some (c : Z) (decoder : gmap Z (option Z) -> Decoded.t) :
  COMPONENT_DECODERS !! c = Some decoder ->
  (c, decoder) ∈
    [(1283, decodeFluidLevel); (1281, decodeBinarySwitch);
     (1282, decodeBinaryIndicator); (1285, decodeTemperature);
     (1291, decodeSwitchControl); (1376, decodeJ1939AcPgn);
     (1361, decodeProprietaryPgn)].
Proof. unfold COMPONENT_DECODERS. apply elem_of_list_to_map_2. Qed.

(** C3.  A component whose type code is none of the seven registered
    codes (or is NaN) decodes, whatever its property list, to the neutral
    record: name "", pgn 0, no instance, label "", direction NONE, no
    device. *)
Theorem decodeComponent_unregistered
        (component : Component.t) (properties : list Property.t) :
  (forall c, Component.componentId component = Some c ->
             c ∉ [1283; 1281; 1282; 1285; 1291; 1376; 1361]) ->
  decodeComponent component properties =
    {| Decoded.name := "";
       Decoded.pgn := Some 0;
       Decoded.instance := None;
       Decoded.id := Some "";
       Decoded.direction := Enums.NONE;
       Decoded.device := None |}.
Proof.
  intros Hunreg. unfold decodeComponent.
  destruct (Component.componentId component) as [c|] eqn:Hid; simpl.
  - rewrite (registry_none c (Hunreg c eq_refl)). reflexivity.
  - reflexivity.
Qed.

Lemma decodeComponent_unregistered_witness :
  (forall c, Some 1292 = Some c ->
             c ∉ [1283; 1281; 1282; 1285; 1291; 1376; 1361]) /\
  decodeComponent (Component.mk (Some 1292) None (Some 3))
                  [Property.mk 4 "17"; Property.mk 31 "bilge"] =
    {| Decoded.name := "";
       Decoded.pgn := Some 0;
       Decoded.instance := None;
       Decoded.id := Some "";
       Decoded.direction := Enums.NONE;
       Decoded.device := None |}.
Proof.
  assert (Hunreg : forall c, Some 1292 = Some c ->
                             c ∉ [1283; 1281; 1282; 1285; 1291; 1376; 1361]).
  { intros c Hc. injection Hc as <-. intros Hin.
    repeat (apply elem_of_cons in Hin as [Hin|Hin]; [discriminate Hin|]).
    apply elem_of_nil in Hin. exact Hin. }
  split; [exact Hunreg|].
  apply decodeComponent_unregistered. exact Hunreg.
Defined.

(** C7.  Type 1283 with the property list 0:"2", 1:"1", 2:"0" decodes to
    Fluid Level, PGN 127505, instance 2, label "fresh water", direction
    TRANSMIT (and no device). *)
Theorem decodeComponent_fluid_level_example :
  decodeComponent (Component.mk (Some 1283) None None)
                  [Property.mk 0 "2"; Property.mk 1 "1"; Property.mk 2 "0"] =
    {| Decoded.name := "Fluid Level";
       Decoded.pgn := Some 127505;
       Decoded.instance := Some 2;
       Decoded.id := Some "fresh water";
       Decoded.direction := Enums.TRANSMIT;
       Decoded.device := None |}.
Proof. vm_compute. reflexivity. Qed.

End ComponentDecoderFacts.

(** ** The channel settings decoder *)

Section ChannelDecoderFacts.
Import ChannelDecoder.

(** C1, as amended.  When the main code of a side (for the output side, a
    main code other than -1) is no key of that side's table, the decoded
    type is ":unknown:" followed by the main code in decimal and the
    decoded subtype is ":unknown:" followed by the sub code in decimal:
    both strings start with a colon. *)
Theorem unknown_main_code_sentinel (side : Side) (channel : Channel.t) :
  settingsTable side !! mainCode side channel = None ->
  (side = OutputSide -> mainCode side channel <> -1) ->
  decodedSide side channel =
    {| Settings.type := ":unknown:" +:+ numToString (mainCode side channel);
       Settings.subtype := ":unknown:" +:+ numToString (subCode side channel) |}.
Proof.
  intros Htable Hout. destruct side; simpl in *.
  - unfold decodeInputSettings. rewrite Htable. reflexivity.
  - unfold decodeOutputSettings.
    destruct (Z.eqb_spec
                (orNum (parseInt (Channel.outMainChannelSettingId channel)) (-1))
                (-1)) as [Heq|Hne].
    + exfalso. apply Hout; [reflexivity | exact Heq].
    + rewrite Htable. reflexivity.
Qed.

Lemma unknown_main_code_sentinel_witness :
  let channel := Channel.mk "3" "bilge pump" "Both" "5" "2" "7" "" in
  (settingsTable OutputSide !! mainCode OutputSide channel = None /\
   (OutputSide = OutputSide -> mainCode OutputSide channel <> -1)) /\
  decodedSide OutputSide channel =
    {| Settings.type := ":unknown:7"; Settings.subtype := ":unknown:-1" |}.
Proof.
  intros channel.
  assert (Htable : settingsTable OutputSide !! mainCode OutputSide channel = None)
    by (vm_compute; reflexivity).
  assert (Hout : OutputSide = OutputSide -> mainCode OutputSide channel <> -1)
    by (intros _; vm_compute; discriminate).
  split; [split; assumption|].
  exact (unknown_main_code_sentinel OutputSide channel Htable Hout).
Defined.

(** C1 as the specification words it does not hold: the type string of an
    unknown main code does not begin with "unknown:". *)
Lemma unknown_prefix_without_colon_fails :
  ~ (forall (side : Side) (channel : Channel.t),
        settingsTable side !! mainCode side channel = None ->
        (side = OutputSide -> mainCode side channel <> -1) ->
        String.prefix "unknown:" (Settings.type (decodedSide side channel))
        = true).
Proof.
  intros Hclaim.
  specialize (Hclaim InputSide (Channel.mk "1" "N/A" "N/A" "5" "2" "" "")).
  vm_compute in Hclaim.
  assert (Hfalse : false = true) by (apply Hclaim; [reflexivity | discriminate]).
  discriminate Hfalse.
Qed.

(** C2, as amended.  A channel whose out-main code is -1, as it is for a
    [channel] element without the outMainChannelSettingId attribute,
    decodes on the output side to the pair of ":unknown:" and ":unknown:",
    with the leading colon and no code. *)
Theorem output_not_configured_sentinel (channel : Channel.t) :
  (mainCode OutputSide channel = -1 \/
   exists element : Element,
     channel = Parser.channelData element /\
     getAttribute element "outMainChannelSettingId" = None) ->
  output (decodeChannelSettings channel) =
    {| Settings.type := ":unknown:"; Settings.subtype := ":unknown:" |}.
Proof.
  intros Hcase.
  assert (Hmain : mainCode OutputSide channel = -1).
  { destruct Hcase as [Hmain | (element & -> & Habsent)]; [exact Hmain|].
    simpl. rewrite Habsent. reflexivity. }
  simpl in *. unfold decodeOutputSettings. rewrite Hmain. reflexivity.
Qed.

Lemma output_not_configured_sentinel_witness :
  let element :=
    Elem "channel" [("number", "4"); ("inMainChannelSettingId", "57");
                    ("inChannelSettingId", "2")] [] in
  (mainCode OutputSide (Parser.channelData element) = -1 \/
   exists element' : Element,
     Parser.channelData element = Parser.channelData element' /\
     getAttribute element' "outMainChannelSettingId" = None) /\
  output (decodeChannelSettings (Parser.channelData element)) =
    {| Settings.type := ":unknown:"; Settings.subtype := ":unknown:" |}.
Proof.
  intros element.
  assert (Hcase :
    mainCode OutputSide (Parser.channelData element) = -1 \/
    exists element' : Element,
      Parser.channelData element = Parser.channelData element' /\
      getAttribute element' "outMainChannelSettingId" = None).
  { right. exists element. split; reflexivity. }
  split; [exact Hcase|].
  exact (output_not_configured_sentinel (Parser.channelData element) Hcase).
Defined.

(** C2 as the specification words it does not hold: the pair of an output
    that is not configured is not "unknown:" and "unknown:". *)
Lemma output_sentinel_without_colon_fails :
  ~ (forall channel : Channel.t,
        mainCode OutputSide channel = -1 ->
        output (decodeChannelSettings channel) =
          {| Settings.type := "unknown:"; Settings.subtype := "unknown:" |}).
Proof.
  intros Hclaim.
  specialize (Hclaim (Channel.mk "1" "N/A" "N/A" "" "" "" "") eq_refl).
  vm_compute in Hclaim. discriminate Hclaim.
Qed.

(** C10.  An out-main attribute text that parses to 0 gives the out-main
    code -1 and the output pair of a channel that is not configured, the
    same as the empty text that [parseChannels] stores for an absent
    attribute. *)
Theorem out_main_zero_is_not_configured (channel : Channel.t) :
  parseInt (Channel.outMainChannelSettingId channel) = Some 0 ->
  mainCode OutputSide channel = -1 /\
  output (decodeChannelSettings channel) = noOutput /\
  output (decodeChannelSettings channel) =
    output (decodeChannelSettings (withOutMain "" channel)).
Proof.
  intros Hzero. simpl. unfold decodeOutputSettings. rewrite Hzero. simpl.
  repeat split; reflexivity.
Qed.

Lemma out_main_zero_is_not_configured_witness :
  let channel := Channel.mk "2" "horn" "Output" "" "" "0" "1" in
  parseInt (Channel.outMainChannelSettingId channel) = Some 0 /\
  (mainCode OutputSide channel = -1 /\
   output (decodeChannelSettings channel) = noOutput /\
   output (decodeChannelSettings channel) =
     output (decodeChannelSettings (withOutMain "" channel))).
Proof.
  intros channel.
  assert (Hzero : parseInt (Channel.outMainChannelSettingId channel) = Some 0)
    by reflexivity.
  split; [exact Hzero|].
  exact (out_main_zero_is_not_configured channel Hzero).
Defined.

End ChannelDecoderFacts.

(** ** The document extractor *)

Section ParserFacts.
Import Parser.

(** *** Property ids *)

Lemma orNum_nonzero (n : option Z) (d : Z) : d <> 0 -> orNum n d <> 0.
Proof.
  intros Hd. unfold orNum. destruct n as [v|]; [|exact Hd].
  destruct (Z.eqb_spec v 0) as [_|Hv]; assumption.
Qed.

Lemma propertyData_id_nonzero (prop : Element) :
  Property.id (propertyData prop) <> 0.
Proof. simpl. apply orNum_nonzero. discriminate. Qed.

Lemma parseProperties_ids_nonzero (element : Element) :
  Forall (fun p => Property.id p <> 0) (parseProperties element).
Proof.
  unfold parseProperties. apply Forall_fmap, Forall_true.
  intros prop. apply propertyData_id_nonzero.
Qed.

(** A map filled by [set] from properties of non-zero id has no key 0. *)
Lemma fold_set_lookup_zero (f : Property.t -> option Z)
      (properties : list Property.t) (map : gmap Z (option Z)) :
  Forall (fun p => Property.id p <> 0) properties ->
  map !! 0 = None ->
  foldl (fun m p => <[Property.id p := f p]> m) map properties !! 0 = None.
Proof.
  intros Hids. revert map.
  induction Hids as [|p properties Hp _ IH]; intros map Hmap; simpl.
  - exact Hmap.
  - apply IH. rewrite lookup_insert_ne; [exact Hmap | exact Hp].
Qed.

Lemma createPropertyMap_no_zero (element : Element) :
  ComponentDecoder.getProperty
    (ComponentDecoder.createPropertyMap (parseProperties element)) 0 = None.
Proof.
  unfold ComponentDecoder.getProperty, ComponentDecoder.createPropertyMap.
  rewrite (fold_set_lookup_zero (fun p => parseInt (Property.value p)));
    [reflexivity | apply parseProperties_ids_nonzero | apply lookup_empty].
Qed.

Lemma memoryPropertyMap_no_zero (element : Element) :
  memoryPropertyMap (parseProperties element) !! 0 = None.
Proof.
  unfold memoryPropertyMap.
  apply (fold_set_lookup_zero (fun p => orNull (parseInt (Property.value p))));
    [apply parseProperties_ids_nonzero | apply lookup_empty].
Qed.

(** *** The sort keeps what holds of every entry *)

Lemma insertSorted_Forall {A} (compare : A -> A -> option Z) (P : A -> Prop)
      (x : A) (l : list A) :
  P x -> Forall P l -> Forall P (insertSorted compare x l).
Proof.
  intros Hx Hl. induction Hl as [|y l Hy Hl IH]; simpl.
  - constructor; [exact Hx | constructor].
  - destruct (0 <? default 0 (compare x y)).
    + constructor; [exact Hy | exact IH].
    + constructor; [exact Hx | constructor; assumption].
Qed.

Lemma sort_Forall {A} (compare : A -> A -> option Z) (P : A -> Prop)
      (l : list A) :
  Forall P l -> Forall P (JS.sort compare l).
Proof.
  intros Hl. induction Hl as [|x l Hx _ IH]; simpl.
  - constructor.
  - apply insertSorted_Forall; assumption.
Qed.

Lemma flat_map_Forall {A B} (f : A -> list B) (P : B -> Prop) (l : list A) :
  (forall x, Forall P (f x)) -> Forall P (flat_map f l).
Proof.
  intros Hf. induction l as [|x l IH]; simpl.
  - constructor.
  - apply Forall_app. split; [apply Hf | exact IH].
Qed.

(** *** Memory *)

Lemma memoryData_unknown (componentNode : Element) :
  Forall (fun m => Memory.type m = "unknown" /\ Memory.bits m = 1)
         (memoryData componentNode).
Proof.
  unfold memoryData. case_bool_decide; [|constructor].
  rewrite memoryPropertyMap_no_zero. simpl.
  constructor; [split; reflexivity | constructor].
Qed.

(** *** Components *)

Lemma componentData_slot_zero (masterModuleBusId : Z) (tabName : string)
      (componentNode : Element) :
  Forall (fun c =>
            (Component.name c ∈ ["Fluid Level"; "Binary Switch";
                                 "Binary Indicator"; "Temperature"] ->
             Component.instance c = None) /\
            (Component.name c ∈ ["Switch Control"; "Proprietary PGN"] ->
             Component.direction c = "") /\
            (Component.name c = "J1939 AC PGN" ->
             Component.device c = masterModuleBusId))
         (componentData masterModuleBusId tabName componentNode).
Proof.
  unfold componentData.
  destruct (_ || _); [constructor|].
  unfold ComponentDecoder.decodeComponent. simpl.
  destruct (parseInt (ToString (getAttribute componentNode "componentId")))
    as [c|]; simpl; [|constructor].
  destruct (ComponentDecoder.COMPONENT_DECODERS !! c) as [decoder|] eqn:Hdec;
    [|constructor].
  apply registry_some in Hdec.
  pose proof (createPropertyMap_no_zero componentNode) as Hzero.
  repeat (apply elem_of_cons in Hdec as [Hdec|Hdec];
          [injection Hdec as -> ->; simpl; rewrite ?Hzero;
           constructor; [|constructor];
           repeat split; intros Hname; try reflexivity;
           repeat (apply elem_of_cons in Hname as [Hname|Hname];
                   [discriminate Hname|]);
           try (apply elem_of_nil in Hname; destruct Hname);
           try discriminate Hname |]).
  apply elem_of_nil in Hdec. destruct Hdec.
Qed.

(** C9.  [parseProperties] returns one record for each [property] child
    of a [properties] element below the element, in document order, and
    the record of a property whose id text is "0" or does not parse has
    the id -1: such a property is in the list under -1.  So no property
    the list holds has the id 0; the property map of the component
    decoder and that of the memory extraction then have nothing under 0.
    Through the extractor every memory entry is of type "unknown" with 1
    bit, and every decoded component sees its slot 0 absent: no instance
    for the fluid, switch, indicator and temperature types, no direction
    for switch control and proprietary PGN, and the master id as device of
    a J1939 component. *)
Theorem property_id_zero_unreachable :
  (forall prop : Element,
      getAttribute prop "id" = Some "0" \/
      parseInt (ToString (getAttribute prop "id")) = None ->
      Property.id (propertyData prop) = -1) /\
  (forall element : Element,
      parseProperties element =
        propertyData <$>
          querySelectorAll element (Child "properties" "property")) /\
  (forall element prop : Element,
      prop ∈ querySelectorAll element (Child "properties" "property") ->
      getAttribute prop "id" = Some "0" \/
      parseInt (ToString (getAttribute prop "id")) = None ->
      {| Property.id := -1;
         Property.value := orStr (getAttribute prop "value") "" |}
        ∈ parseProperties element) /\
  (forall element : Element,
      Forall (fun p => Property.id p <> 0) (parseProperties element) /\
      ComponentDecoder.getProperty
        (ComponentDecoder.createPropertyMap (parseProperties element)) 0
      = None /\
      memoryPropertyMap (parseProperties element) !! 0 = None) /\
  (forall (browser : Browser) (xmlString : string),
      Forall (fun m => Memory.type m = "unknown" /\ Memory.bits m = 1)
             (parseMemory xmlString) /\
      Forall (fun c =>
                (Component.name c ∈ ["Fluid Level"; "Binary Switch";
                                     "Binary Indicator"; "Temperature"] ->
                 Component.instance c = None) /\
                (Component.name c ∈ ["Switch Control"; "Proprietary PGN"] ->
                 Component.direction c = "") /\
                (Component.name c = "J1939 AC PGN" ->
                 Component.device c =
                   findMasterModuleBusId (parseFromString xmlString)))
             (parseComponents xmlString)).
Proof.
  assert (Hbad : forall prop : Element,
             getAttribute prop "id" = Some "0" \/
             parseInt (ToString (getAttribute prop "id")) = None ->
             Property.id (propertyData prop) = -1).
  { intros prop [Hzero|Hnan]; simpl.
    - rewrite Hzero. reflexivity.
    - rewrite Hnan. reflexivity. }
  split; [exact Hbad|]. split; [|split; [|split]].
  - intros element. reflexivity.
  - intros element prop Hprop Hid.
    apply (list_elem_of_fmap_2 propertyData) in Hprop.
    pose proof (Hbad prop Hid) as Hminus.
    unfold parseProperties.
    replace {| Property.id := -1;
               Property.value := orStr (getAttribute prop "value") "" |}
      with (propertyData prop); [exact Hprop|].
    unfold propertyData in *. simpl in Hminus. rewrite Hminus. reflexivity.
  - intros element. split; [|split].
    + apply parseProperties_ids_nonzero.
    + apply createPropertyMap_no_zero.
    + apply memoryPropertyMap_no_zero.
  - intros browser xmlString. split.
    + unfold parseMemory. apply sort_Forall, flat_map_Forall.
      apply memoryData_unknown.
    + unfold parseComponents. apply sort_Forall, flat_map_Forall.
      intros schema. apply flat_map_Forall.
      apply componentData_slot_zero.
Qed.

Lemma property_id_zero_unreachable_witness :
  let prop := property "0" "1" in
  let element := component "2304" [prop; property "1" "16"] in
  (prop ∈ querySelectorAll element (Child "properties" "property") /\
   (getAttribute prop "id" = Some "0" \/
    parseInt (ToString (getAttribute prop "id")) = None)) /\
  Property.id (propertyData prop) = -1 /\
  {| Property.id := -1; Property.value := "1" |} ∈ parseProperties element.
Proof.
  intros prop element.
  assert (Hprop : prop ∈ querySelectorAll element
                              (Child "properties" "property"))
    by (vm_compute; left).
  assert (Hid : getAttribute prop "id" = Some "0" \/
                parseInt (ToString (getAttribute prop "id")) = None)
    by (left; reflexivity).
  split; [split; assumption|]. split.
  - exact (proj1 property_id_zero_unreachable prop Hid).
  - exact (proj1 (proj2 (proj2 property_id_zero_unreachable))
             element prop Hprop Hid).
Defined.

(** *** Memory types *)

(** C4.  The memory extraction does not reach its table of types: a
    stored memory value whose property 0 is 1, the code of the 8-bit type,
    comes out as type "unknown" with 1 bit.  The text is
    <project><component componentId="2304"><properties>
    <property id="0" value="1"/><property id="1" value="16"/>
    </properties></component></project>. *)
Theorem memory_type_table_unreachable (browser : Browser) (xmlString : string) :
  parseFromString xmlString = memoryDoc ->
  MEMORY_TYPES !! 1 = Some (MemoryType.mk "UByte (8 Bit)" 8) /\
  parseMemory xmlString =
    [ {| Memory.type := "unknown";
         Memory.location := Some (Some 16);
         Memory.bits := 1 |} ].
Proof.
  intros Hdoc. split; [reflexivity|].
  unfold parseMemory. rewrite Hdoc. vm_compute. reflexivity.
Qed.

Lemma memory_type_table_unreachable_witness :
  @parseFromString (browserOf memoryDoc) "text" = memoryDoc /\
  (MEMORY_TYPES !! 1 = Some (MemoryType.mk "UByte (8 Bit)" 8) /\
   @parseMemory (browserOf memoryDoc) "text" =
     [ {| Memory.type := "unknown";
          Memory.location := Some (Some 16);
          Memory.bits := 1 |} ]).
Proof.
  split; [reflexivity|].
  exact (memory_type_table_unreachable (browserOf memoryDoc) "text" eq_refl).
Defined.

(** *** Units and validation *)




(** *** The master module *)

(** The scan returns at the first unit that [isMaster] accepts, with the
    id of that unit read by [parseInt(...) || -1]. *)
Lemma scanUnits_first_match (unitElements : list Element) :
  scanUnits unitElements =
    match List.find isMaster unitElements with
    | Some unit => orNum (parseInt (ToString (getAttribute unit "id"))) (-1)
    | None => -1
    end.
Proof.
  induction unitElements as [|unit rest IH]; simpl; [reflexivity|].
  unfold isMaster at 1.
  destruct ((_ =? 101) || (_ =? 100)); simpl; [reflexivity|].
  destruct (_ && _); [reflexivity | exact IH].
Qed.

(** C6.  A master module of unit type 101 whose id is 0 is the first unit
    that matches, and the resolution returns -1.  The text is
    <project><units><unit id="0" unitTypeId="101"/></units></project>. *)
Theorem master_id_zero_not_found :
  let unit := Elem "unit" [("id", "0"); ("unitTypeId", "101")] [] in
  querySelectorAll masterZeroDoc (Child "units" "unit") = [unit] /\
  parseInt (ToString (getAttribute unit "unitTypeId")) = Some 101 /\
  parseInt (ToString (getAttribute unit "id")) = Some 0 /\
  findMasterModuleBusId masterZeroDoc = -1.
Proof. vm_compute. repeat split; reflexivity. Qed.

(** *** The component order *)

(** The comparator is not transitive on its ties: an entry without
    instance ties with the two entries of instance 0, which do not tie. *)
Lemma compareComponents_ties_not_transitive (browser : Browser) :
  let a := switchWithInstance in
  let b := switchWithoutInstance in
  let c :=
    {| Component.name := "Switch Control";
       Component.pgn := Some 127502;
       Component.device := -1;
       Component.instance := Some 0;
       Component.id := Some "3";
       Component.direction := "";
       Component.tabName := "Main" |} in
  compareComponents a b = Some 0 /\
  compareComponents b c = Some 0 /\
  compareComponents a c = Some 3.
Proof. vm_compute. repeat split; reflexivity. Qed.

(** C8.  Two switch controls of one PGN and device, the first with
    instance 0 and label "6", the second with no instance and label "1",
    come out in document order: the comparator returns 0 for them in both
    directions, though in the order of the specification the second is
    before the first.  The text is
    <project><schemas><schema name="Main"><components>
    <component componentId="1291"><properties><property id="1" value="0"/>
    <property id="2" value="5"/></properties></component>
    <component componentId="1291"><properties><property id="2" value="0"/>
    </properties></component></components></schema></schemas></project>. *)
Theorem component_sort_skips_label (browser : Browser) (xmlString : string) :
  parseFromString xmlString = switchControlDoc ->
  parseComponents xmlString = [switchWithInstance; switchWithoutInstance] /\
  compareComponents switchWithInstance switchWithoutInstance = Some 0 /\
  compareComponents switchWithoutInstance switchWithInstance = Some 0 /\
  specBefore switchWithoutInstance switchWithInstance.
Proof.
  intros Hdoc. split; [|split; [|split]].
  - unfold parseComponents. rewrite Hdoc. vm_compute. reflexivity.
  - vm_compute. reflexivity.
  - vm_compute. reflexivity.
  - unfold specBefore. simpl. right. split; [reflexivity|].
    right. split; [reflexivity|]. right. split; [reflexivity|].
    unfold labelBefore. simpl. lia.
Qed.

Lemma component_sort_skips_label_witness :
  let browser := browserOf switchControlDoc in
  parseFromString "text" = switchControlDoc /\
  (parseComponents "text" = [switchWithInstance; switchWithoutInstance] /\
   compareComponents switchWithInstance switchWithoutInstance = Some 0 /\
   compareComponents switchWithoutInstance switchWithInstance = Some 0 /\
   specBefore switchWithoutInstance switchWithInstance).
Proof.
  intros browser. split; [reflexivity|].
  exact (component_sort_skips_label browser "text" eq_refl).
Defined.

End ParserFacts.

(** ** The sort *)

Section SortFacts.
Context {A : Type} (compare : A -> A -> option Z).

Lemma insertSorted_Permutation (x : A) (l : list A) :
  insertSorted compare x l ≡ₚ x :: l.
Proof.
  induction l as [|y l IH]; simpl; [reflexivity|].
  destruct (0 <? default 0 (compare x y)); [|reflexivity].
  rewrite IH. apply perm_swap.
Qed.

Lemma sort_Permutation (l : list A) : JS.sort compare l ≡ₚ l.
Proof.
  induction l as [|x l IH]; simpl; [reflexivity|].
  rewrite insertSorted_Permutation. rewrite IH. reflexivity.
Qed.

(** An order [R] that the comparator follows on the entries that satisfy
    [P]: the sort of such entries is ascending in [R]. *)
Section Ordered.
Context (R : A -> A -> Prop) (P : A -> Prop).
Hypothesis R_trans : forall x y z, R x y -> R y z -> R x z.
Hypothesis compare_R :
  forall x y, P x -> P y ->
    if 0 <? default 0 (compare x y) then R y x else R x y.

Lemma insertSorted_sorted (x : A) (l : list A) :
  P x -> Forall P l -> StronglySorted R l ->
  StronglySorted R (insertSorted compare x l).
Proof.
  intros Hx HP Hsorted.
  induction l as [|y l IH]; simpl.
  - constructor; constructor.
  - apply Forall_cons in HP as [Hy HP].
    apply StronglySorted_inv in Hsorted as [Hsorted Hall].
    pose proof (compare_R x y Hx Hy) as Hxy.
    destruct (0 <? default 0 (compare x y)).
    + constructor; [apply IH; assumption|].
      rewrite insertSorted_Permutation. constructor; assumption.
    + constructor; [constructor; assumption|].
      constructor; [exact Hxy|].
      eapply Forall_impl; [exact Hall|].
      intros z Hyz. eapply R_trans; eassumption.
Qed.

Lemma sort_sorted (l : list A) :
  Forall P l -> StronglySorted R (JS.sort compare l).
Proof.
  intros HP. induction HP as [|x l Hx HP IH]; simpl; [constructor|].
  apply insertSorted_sorted; [exact Hx | | exact IH].
  rewrite sort_Permutation. exact HP.
Qed.
End Ordered.

(** A comparator that is the difference of a key keeps the entries of one
    key in their order: the sort is stable. *)
Section Stable.
Context (key : A -> Z).
Hypothesis compare_key : forall x y, compare x y = Some (key x - key y).

Lemma insertSorted_filter (k : Z) (x : A) (l : list A) :
  filter (fun a => key a = k) (insertSorted compare x l) =
  filter (fun a => key a = k) (x :: l).
Proof.
  induction l as [|y l IH]; simpl; [reflexivity|].
  rewrite compare_key. simpl.
  destruct (Z.ltb_spec 0 (key x - key y)) as [Hlt|Hge]; [|reflexivity].
  rewrite !filter_cons in *.
  destruct (decide (key y = k)) as [Hy|Hy];
    destruct (decide (key x = k)) as [Hx|Hx];
    rewrite IH; try reflexivity.
  lia.
Qed.

Lemma sort_filter (k : Z) (l : list A) :
  filter (fun a => key a = k) (JS.sort compare l) =
  filter (fun a => key a = k) l.
Proof.
  induction l as [|x l IH]; simpl; [reflexivity|].
  rewrite insertSorted_filter. rewrite !filter_cons. rewrite IH. reflexivity.
Qed.

Lemma sort_by_key (l : list A) :
  StronglySorted (fun a b => key a <= key b) (JS.sort compare l).
Proof.
  apply (sort_sorted (fun a b => key a <= key b) (fun _ => True)).
  - intros x y z Hxy Hyz. lia.
  - intros x y _ _. rewrite compare_key. simpl.
    destruct (Z.ltb_spec 0 (key x - key y)); lia.
  - apply Forall_true. intros; exact I.
Qed.
End Stable.

End SortFacts.

(** ** Alarms, schemas and memory *)

Section OrderedOutputs.
Import Parser.

Lemma compareAlarms_key (a b : Alarm.t) :
  compareAlarms a b = Some (alarmNumber a - alarmNumber b).
Proof. reflexivity. Qed.

(** X1.  [parseAlarms] returns the alarms it collects, all of them,
    ascending by the number of their alarm id (0 for an id that does not
    parse), and the alarms of one number in the order of the document. *)
Theorem parseAlarms_sorted_stable (browser : Browser) (xmlString : string) :
  parseAlarms xmlString ≡ₚ collectAlarms (parseFromString xmlString) /\
  StronglySorted (fun a b => alarmNumber a <= alarmNumber b)
                 (parseAlarms xmlString) /\
  forall k : Z,
    filter (fun a => alarmNumber a = k) (parseAlarms xmlString) =
    filter (fun a => alarmNumber a = k)
           (collectAlarms (parseFromString xmlString)).
Proof.
  unfold parseAlarms. split; [|split].
  - apply sort_Permutation.
  - apply (sort_by_key compareAlarms alarmNumber compareAlarms_key).
  - intros k. apply (sort_filter compareAlarms alarmNumber compareAlarms_key).
Qed.

Lemma orStr_nonempty (s : option string) (d : string) :
  d <> "" -> orStr s d <> "".
Proof.
  intros Hd. destruct s as [[|c s]|]; simpl; [exact Hd | discriminate | exact Hd].
Qed.

(** The two fields of an alarm are never empty, whatever the properties. *)
Lemma alarmFields_nonempty (propertyElements : list Element) :
  fst (alarmFields propertyElements) <> "" /\
  snd (alarmFields propertyElements) <> "".
Proof.
  unfold alarmFields.
  assert (Hgen : forall (state : string * string),
             fst state <> "" /\ snd state <> "" ->
             let final :=
               foldl (fun '(alarmId, alarmName) property =>
                        let propertyId := getAttribute property "id" in
                        if bool_decide (propertyId = Some "4")
                        then (orStr (getAttribute property "value") "N/A",
                              alarmName)
                        else if bool_decide (propertyId = Some "31")
                        then (alarmId,
                              orStr (getAttribute property "value") "N/A")
                        else (alarmId, alarmName))
                     state propertyElements in
             fst final <> "" /\ snd final <> "").
  { induction propertyElements as [|property rest IH]; intros [alarmId alarmName];
      simpl; [tauto|].
    intros [Hid Hname]. apply IH.
    repeat case_bool_decide; simpl; split;
      try assumption; apply orStr_nonempty; discriminate. }
  apply Hgen. simpl. split; discriminate.
Qed.

Lemma alarmData_invariant (schemaName : string) (component : Element) :
  Forall (fun a =>
            (Alarm.alarmId a <> "N/A" \/ Alarm.alarmName a <> "N/A") /\
            Alarm.alarmId a <> "" /\ Alarm.alarmName a <> "" /\
            Alarm.componentId a = "1292" /\
            Alarm.schemaName a = schemaName)
         (alarmData schemaName component).
Proof.
  unfold alarmData. case_bool_decide; [|constructor].
  destruct (querySelector component (Tag "properties")) as [propertiesElement|];
    [|constructor].
  pose proof (alarmFields_nonempty
                (getElementsByTagName propertiesElement "property")) as [Hid Hname].
  destruct (alarmFields (getElementsByTagName propertiesElement "property"))
    as [alarmId alarmName]. simpl in Hid, Hname.
  destruct (bool_decide (alarmId <> "N/A") || bool_decide (alarmName <> "N/A"))
    eqn:Hkeep; [|constructor].
  constructor; [|constructor]. simpl.
  apply orb_true_iff in Hkeep.
  repeat split; try assumption; try reflexivity.
  destruct Hkeep as [Hk%bool_decide_eq_true|Hk%bool_decide_eq_true]; tauto.
Qed.

(** X2.  Every alarm that [parseAlarms] returns carries an alarm id or an
    alarm name other than "N/A", neither of the two is the empty string,
    its component id is "1292" and its schema name is not empty. *)
Theorem parseAlarms_entries (browser : Browser) (xmlString : string) :
  Forall (fun a =>
            (Alarm.alarmId a <> "N/A" \/ Alarm.alarmName a <> "N/A") /\
            Alarm.alarmId a <> "" /\ Alarm.alarmName a <> "" /\
            Alarm.componentId a = "1292" /\
            Alarm.schemaName a <> "")
         (parseAlarms xmlString).
Proof.
  unfold parseAlarms, collectAlarms.
  apply sort_Forall, flat_map_Forall. intros schema.
  destruct (querySelector schema (Tag "components")) as [componentsContainer|];
    [|constructor].
  apply flat_map_Forall. intros component.
  eapply Forall_impl; [apply alarmData_invariant|].
  intros a (Hkeep & Hid & Hname & Hcomp & Hschema).
  repeat split; try assumption.
  rewrite Hschema. apply orStr_nonempty. discriminate.
Qed.

Lemma compareSchemas_key (a b : Schema.t) :
  compareSchemas a b = Some (Schema.sortIndex a - Schema.sortIndex b).
Proof. reflexivity. Qed.

(** X3.  [parseSchemas] returns one schema for each [schema] child of a
    [schemas] element, ascending by sort index (0 for an index that is
    absent, unparseable or 0), the schemas of one index in the order of
    the document. *)
Theorem parseSchemas_sorted_stable (browser : Browser) (xmlString : string) :
  let schemaElements :=
    querySelectorAll (parseFromString xmlString) (Child "schemas" "schema") in
  parseSchemas xmlString ≡ₚ schemaData <$> schemaElements /\
  StronglySorted (fun a b => Schema.sortIndex a <= Schema.sortIndex b)
                 (parseSchemas xmlString) /\
  forall k : Z,
    filter (fun a => Schema.sortIndex a = k) (parseSchemas xmlString) =
    filter (fun a => Schema.sortIndex a = k) (schemaData <$> schemaElements).
Proof.
  unfold parseSchemas. split; [|split].
  - apply sort_Permutation.
  - apply (sort_by_key compareSchemas Schema.sortIndex compareSchemas_key).
  - intros k.
    apply (sort_filter compareSchemas Schema.sortIndex compareSchemas_key).
Qed.



End OrderedOutputs.

(** ** The tree and its queries *)

Section TreeFacts.

Lemma Element_induction (P : Element -> Prop) :
  (forall tag attrs kids, Forall P kids -> P (Elem tag attrs kids)) ->
  forall e, P e.
Proof.
  intros step. fix IH 1. intros [tag attrs kids]. apply step.
  induction kids as [|kid kids IHkids]; constructor; [apply IH | exact IHkids].
Qed.

Lemma descendants_unfold (e : Element) :
  descendants e =
  flat_map (fun c => (Some e, c) :: descendants c) (children e).
Proof. destruct e; reflexivity. Qed.

Lemma child_in_descendants (e c : Element) :
  In c (children e) -> In (Some e, c) (descendants e).
Proof.
  intros Hc. rewrite descendants_unfold. apply in_flat_map.
  exists c. split; [exact Hc | left; reflexivity].
Qed.

(** The children of a descendant are descendants. *)
Lemma descendants_closed (root : Element) :
  forall p e c,
    In (p, e) (descendants root) -> In c (children e) ->
    In (Some e, c) (descendants root).
Proof.
  induction root as [tag attrs kids IH] using Element_induction.
  intros p e c He Hc. rewrite descendants_unfold in *. simpl in *.
  apply in_flat_map in He as (kid & Hkid & [Heq|Hdeep]).
  - injection Heq as _ <-. apply in_flat_map. exists kid. split; [exact Hkid|].
    right. apply child_in_descendants. exact Hc.
  - apply in_flat_map. exists kid. split; [exact Hkid|]. right.
    rewrite Forall_forall in IH.
    apply (IH kid (proj2 (list_elem_of_In _ _) Hkid) p e c Hdeep Hc).
Qed.

Lemma scope_children (xmlDoc : Document) (p : option Element) (e c : Element) :
  (p, e) ∈ scope xmlDoc -> c ∈ children e -> (Some e, c) ∈ scope xmlDoc.
Proof.
  intros He Hc. apply list_elem_of_In in He. apply list_elem_of_In in Hc.
  apply list_elem_of_In. right. destruct He as [Heq|He].
  - injection Heq as _ <-. apply child_in_descendants. exact Hc.
  - eapply descendants_closed; eassumption.
Qed.

Lemma querySelectorAll_elem `{ParentNode Node} (n : Node) (sel : Selector)
      (e : Element) :
  e ∈ querySelectorAll n sel <->
  exists p, (p, e) ∈ scope n /\ matches sel (p, e) = true.
Proof.
  unfold querySelectorAll. rewrite list_elem_of_fmap. split.
  - intros ([p e'] & -> & Hin). apply list_elem_of_filter in Hin as [Hm Hin].
    exists p. split; assumption.
  - intros (p & Hin & Hm). exists (p, e). split; [reflexivity|].
    apply list_elem_of_filter. split; assumption.
Qed.

End TreeFacts.

(** ** Units, validation and metadata *)

Section UnitFacts.
Import Parser.

(** X5.  When [parseUnits] returns, the list is not empty and holds the
    [unit] children of the first [units] element, and [validateEBP] on the
    same text has no complaint but, when there is no [project] element,
    "Missing project root element". *)
Theorem parseUnits_success_validates (browser : Browser) (xmlString : string)
        (units : list Unit.t) :
  parseUnits xmlString = Return units ->
  units <> [] /\
  (exists unitsContainer,
      querySelector (parseFromString xmlString) (Tag "units")
      = Some unitsContainer /\
      units = unitData <$> filter (fun el => tagName el = "unit")
                                  (children unitsContainer)) /\
  (forall message,
      message ∈ Validation.errors (validateEBP xmlString) ->
      message = "Missing project root element") /\
  (Validation.isValid (validateEBP xmlString) = true <->
   querySelector (parseFromString xmlString) (Tag "project") <> None).
Proof.
  unfold parseUnits, validateEBP.
  destruct (querySelector (parseFromString xmlString) (Tag "parsererror"));
    [discriminate|].
  destruct (querySelector (parseFromString xmlString) (Tag "units"))
    as [unitsContainer|] eqn:Hunits; [|discriminate].
  destruct (filter (fun el => tagName el = "unit") (children unitsContainer))
    as [|unit rest] eqn:Hchildren; simpl; [discriminate|].
  intros Hret. injection Hret as <-.
  assert (Hunit : getElementsByTagName (parseFromString xmlString) "unit" <> []).
  { assert (Hin : unit ∈ getElementsByTagName (parseFromString xmlString) "unit").
    { assert (Hu : unit ∈ filter (fun el => tagName el = "unit")
                                 (children unitsContainer))
        by (rewrite Hchildren; left).
      apply list_elem_of_filter in Hu as [Htag Hchild].
      apply head_Some_elem_of in Hunits.
      apply querySelectorAll_elem in Hunits as (p & Hscope & _).
      apply querySelectorAll_elem. exists (Some unitsContainer). split.
      - eapply scope_children; eassumption.
      - simpl. rewrite Htag. reflexivity. }
    intros Hnil. rewrite Hnil in Hin. apply elem_of_nil in Hin. exact Hin. }
  destruct (getElementsByTagName (parseFromString xmlString) "unit")
    as [|u us]; [contradiction|]. simpl.
  split; [discriminate|].
  split; [exists unitsContainer; split;
          [reflexivity | rewrite Hchildren; reflexivity]|].
  unfold pushIf. case_bool_decide as Hproject; simpl.
  - split.
    + intros message Hin. apply list_elem_of_singleton in Hin. exact Hin.
    + split; [discriminate | intros Hsome; contradiction].
  - split.
    + intros message Hin. apply elem_of_nil in Hin. destruct Hin.
    + split; [intros _; exact Hproject | reflexivity].
Qed.

Lemma parseUnits_success_validates_witness :
  let browser :=
    browserOf (Doc (Elem "config" []
      [Elem "units" [] [Elem "unit" [("id", "7"); ("name", "DCM")] []]])) in
  let units :=
    [ {| Unit.id := "7"; Unit.serial := "N/A"; Unit.name := "DCM";
         Unit.unitTypeId := "N/A"; Unit.standardUnitVariantNumber := "N/A";
         Unit.channels := [] |} ] in
  parseUnits "text" = Return units /\
  Validation.errors (validateEBP "text") = ["Missing project root element"] /\
  forall message,
    message ∈ Validation.errors (validateEBP "text") ->
    message = "Missing project root element".
Proof.
  intros browser units.
  assert (Hret : parseUnits "text" = Return units) by reflexivity.
  split; [exact Hret|]. split; [reflexivity|].
  exact (proj1 (proj2 (proj2
           (parseUnits_success_validates browser "text" units Hret)))).
Defined.

(** X6.  The result of [validateEBP] is valid exactly when it has no
    error, which is exactly when the text is well formed and the document
    has a [project], a [units] and a [unit] element; for a text that is not
    well formed the only error is "Invalid XML format". *)
Theorem validateEBP_valid_iff (browser : Browser) (xmlString : string) :
  let xmlDoc := parseFromString xmlString in
  let result := validateEBP xmlString in
  (Validation.isValid result = true <-> Validation.errors result = []) /\
  (Validation.isValid result = true <->
   querySelector xmlDoc (Tag "parsererror") = None /\
   querySelector xmlDoc (Tag "project") <> None /\
   querySelector xmlDoc (Tag "units") <> None /\
   getElementsByTagName xmlDoc "unit" <> []) /\
  (querySelector xmlDoc (Tag "parsererror") <> None ->
   Validation.errors result = ["Invalid XML format"]).
Proof.
  intros xmlDoc result. subst xmlDoc result. unfold validateEBP.
  destruct (querySelector (parseFromString xmlString) (Tag "parsererror"))
    as [parseError|]; simpl.
  - split; [split; discriminate|].
    split; [|reflexivity].
    split; [discriminate | intros [Hnone _]; discriminate Hnone].
  - unfold pushIf.
    destruct (querySelector (parseFromString xmlString) (Tag "project"));
      destruct (querySelector (parseFromString xmlString) (Tag "units"));
      destruct (getElementsByTagName (parseFromString xmlString) "unit");
      simpl; (split; [split; (reflexivity || discriminate)|]);
      (split; [|intros Hne; contradiction]);
      (split; [try discriminate; intros _; repeat split; discriminate
              | try reflexivity; intros (_ & Hp & Hu & Hl); contradiction]).
Qed.


Lemma orNum_cases (n : option Z) (d : Z) :
  orNum n d = d \/ (n = Some (orNum n d) /\ orNum n d <> 0).
Proof.
  unfold orNum. destruct n as [v|]; [|left; reflexivity].
  destruct (Z.eqb_spec v 0) as [Hz|Hnz]; [left; reflexivity|].
  right. split; [reflexivity | exact Hnz].
Qed.

(** X8.  The master id is never 0.  It is -1 when no unit under a [units]
    element is a master; a result other than -1 is the parsed id of the
    first unit that is one. *)
Theorem findMasterModuleBusId_result (xmlDoc : Document) :
  let unitElements := querySelectorAll xmlDoc (Child "units" "unit") in
  let result := findMasterModuleBusId xmlDoc in
  result <> 0 /\
  (Forall (fun unit => isMaster unit = false) unitElements -> result = -1) /\
  (result <> -1 ->
   exists unit,
     List.find isMaster unitElements = Some unit /\
     parseInt (ToString (getAttribute unit "id")) = Some result).
Proof.
  intros unitElements result. subst result. unfold findMasterModuleBusId.
  fold unitElements. rewrite scanUnits_first_match.
  destruct (List.find isMaster unitElements) as [unit|] eqn:Hfind.
  - split; [apply orNum_nonzero; discriminate|]. split.
    + intros Hnone. apply find_some in Hfind as [Hin Hmaster].
      rewrite Forall_forall in Hnone.
      rewrite (Hnone unit (proj2 (list_elem_of_In _ _) Hin)) in Hmaster.
      discriminate Hmaster.
    + intros Hne. exists unit. split; [reflexivity|].
      destruct (orNum_cases (parseInt (ToString (getAttribute unit "id"))) (-1))
        as [Hd|[Hsome _]]; [contradiction | exact Hsome].
  - split; [discriminate|]. split; [reflexivity | intros Hne; contradiction].
Qed.

Lemma channelData_nonempty (channel : Element) :
  Channel.number (channelData channel) <> "" /\
  Channel.name (channelData channel) <> "" /\
  Channel.direction (channelData channel) <> "".
Proof. simpl. repeat split; apply orStr_nonempty; discriminate. Qed.

(** X9.  In the units that [parseUnits] returns no id, serial, name, unit
    type or variant number is the empty string, nor is a group id or the
    number, name or direction of a channel: an absent or empty attribute
    is "N/A". *)
Theorem parseUnits_fields_nonempty (browser : Browser) (xmlString : string)
        (units : list Unit.t) :
  parseUnits xmlString = Return units ->
  Forall (fun unit =>
            Unit.id unit <> "" /\ Unit.serial unit <> "" /\
            Unit.name unit <> "" /\ Unit.unitTypeId unit <> "" /\
            Unit.standardUnitVariantNumber unit <> "" /\
            Forall (fun group =>
                      ChannelGroup.groupId group <> "" /\
                      Forall (fun channel =>
                                Channel.number channel <> "" /\
                                Channel.name channel <> "" /\
                                Channel.direction channel <> "")
                             (ChannelGroup.channels group))
                   (Unit.channels unit))
         units.
Proof.
  unfold parseUnits.
  destruct (querySelector (parseFromString xmlString) (Tag "parsererror"));
    [discriminate|].
  destruct (querySelector (parseFromString xmlString) (Tag "units"))
    as [unitsContainer|]; [|discriminate].
  destruct (Nat.eqb _ 0); [discriminate|].
  intros Hret. injection Hret as <-.
  apply Forall_fmap, Forall_true. intros unit. simpl.
  repeat split; try (apply orStr_nonempty; discriminate).
  unfold parseChannels. apply Forall_fmap, Forall_true. intros group. simpl.
  split; [apply orStr_nonempty; discriminate|].
  apply Forall_fmap, Forall_true. intros channel.
  apply channelData_nonempty.
Qed.

Lemma parseUnits_fields_nonempty_witness :
  let browser :=
    browserOf (Doc (Elem "project" []
      [Elem "units" []
         [Elem "unit" [("id", "7"); ("name", "")]
            [Elem "unitChannelGroup" []
               [Elem "channel" [("number", "1")] []]]]])) in
  exists units,
    parseUnits "text" = Return units /\
    Forall (fun unit => Unit.name unit <> "" /\ Unit.serial unit <> "") units.
Proof.
  intros browser. eexists. split; [reflexivity|].
  eapply Forall_impl.
  - exact (parseUnits_fields_nonempty browser "text" _ eq_refl).
  - simpl. intros unit (_ & Hserial & Hname & _). split; assumption.
Defined.

End UnitFacts.

(** ** More of the component decoder *)

Section MoreComponentDecoderFacts.
Import ComponentDecoder.

Lemma getProperty_insert (props : gmap Z (option Z)) (k id : Z)
      (v : option Z) :
  getProperty (<[k := v]> props) id =
  if decide (k = id) then v else getProperty props id.
Proof.
  unfold getProperty. rewrite lookup_insert.
  destruct (decide (k = id)); reflexivity.
Qed.

(** X10.  The value of a property id in the property map is that of the
    last property of the list with this id, parsed as an integer; it is
    absent when the list has no such property or the last one does not
    parse. *)
Theorem createPropertyMap_last_wins (properties : list Property.t) (id : Z) :
  getProperty (createPropertyMap properties) id =
  last (filter (fun p => Property.id p = id) properties)
  ≫= fun p => parseInt (Property.value p).
Proof.
  unfold createPropertyMap.
  induction properties as [|p properties IH] using rev_ind.
  - reflexivity.
  - rewrite foldl_app. simpl. rewrite getProperty_insert.
    rewrite filter_app, filter_cons, filter_nil.
    destruct (decide (Property.id p = id)) as [Hid|Hid].
    + rewrite last_snoc. reflexivity.
    + rewrite app_nil_r. exact IH.
Qed.

Lemma fixedComponents_some (code : Z) (entry : string * Z) :
  fixedComponents !! code = Some entry ->
  (code, entry) ∈
    [(1283, ("Fluid Level", 127505)); (1281, ("Binary Switch", 127501));
     (1282, ("Binary Indicator", 127501)); (1285, ("Temperature", 130312));
     (1291, ("Switch Control", 127502)); (1361, ("Proprietary PGN", 65280))].
Proof. unfold fixedComponents. apply elem_of_list_to_map_2. Qed.

(** X11.  The decoded name is not empty exactly for the seven registered
    type codes.  For the six types other than 1376 the name and the PGN
    are those of the table and there is no device; for 1376 the name is
    "J1939 AC PGN", there is no instance, label or direction, and the
    device is property 0. *)
Theorem decodeComponent_table (code : Z) (channelId unitId : option Z)
        (properties : list Property.t) :
  let decoded :=
    decodeComponent (Component.mk (Some code) channelId unitId) properties in
  (Decoded.name decoded <> "" <->
   code ∈ [1283; 1281; 1282; 1285; 1291; 1376; 1361]) /\
  (forall name pgn,
      fixedComponents !! code = Some (name, pgn) ->
      Decoded.name decoded = name /\ Decoded.pgn decoded = Some pgn /\
      Decoded.device decoded = None) /\
  (code = 1376 ->
   Decoded.name decoded = "J1939 AC PGN" /\
   Decoded.instance decoded = None /\ Decoded.id decoded = Some "" /\
   Decoded.direction decoded = Enums.NONE /\
   Decoded.device decoded = getProperty (createPropertyMap properties) 0).
Proof.
  intros decoded. subst decoded. split; [|split].
  - split.
    + intros Hname. destruct (decide (code ∈ [1283; 1281; 1282; 1285; 1291; 1376; 1361]))
        as [Hin|Hout]; [exact Hin|].
      exfalso. apply Hname. unfold decodeComponent. simpl.
      rewrite (registry_none code Hout). reflexivity.
    + intros Hin.
      repeat (apply elem_of_cons in Hin as [->|Hin]; [discriminate|]).
      apply elem_of_nil in Hin. destruct Hin.
  - intros name pgn Hfixed. apply fixedComponents_some in Hfixed.
    repeat (apply elem_of_cons in Hfixed as [Hfixed|Hfixed];
            [injection Hfixed as -> -> ->; repeat split; reflexivity|]).
    apply elem_of_nil in Hfixed. destruct Hfixed.
  - intros ->. repeat split; reflexivity.
Qed.

Lemma tableEntry_spec {A} (table : list A) (dflt : A) (v : option Z) :
  match v with
  | Some i =>
      if i <? Z.of_nat (length table) then index table i else Some dflt
  | None => Some dflt
  end = tableEntry table dflt v.
Proof.
  unfold tableEntry, index. destruct v as [i|]; [|reflexivity].
  destruct (Z.ltb_spec i 0) as [Hneg|Hpos].
  - destruct (Z.ltb_spec i (Z.of_nat (length table))); [reflexivity | lia].
  - reflexivity.
Qed.

(** X12.  The label of a fluid level and of a temperature, and the PGN of
    a J1939 component, are read from their tables by property 1: the
    entry for a value from 0 up to the length of the table; "unknown" (0
    for the PGN) for an absent property and for a value past the end; and
    [undefined] for a negative value. *)
Theorem table_lookup_bounds (props : gmap Z (option Z)) :
  Decoded.id (decodeFluidLevel props) =
    tableEntry FLUID_TYPES "unknown" (getProperty props 1) /\
  Decoded.id (decodeTemperature props) =
    tableEntry TEMPERATURE_SOURCES "unknown" (getProperty props 1) /\
  Decoded.pgn (decodeJ1939AcPgn props) =
    tableEntry J1939_PGNS 0 (getProperty props 1) /\
  (forall (A : Type) (table : list A) (dflt : A) (i : Z),
      (i < 0 -> tableEntry table dflt (Some i) = None) /\
      (0 <= i < Z.of_nat (length table) ->
       is_Some (tableEntry table dflt (Some i)) /\
       tableEntry table dflt (Some i) = table !! Z.to_nat i) /\
      (Z.of_nat (length table) <= i ->
       tableEntry table dflt (Some i) = Some dflt)).
Proof.
  split; [|split; [|split]].
  - apply tableEntry_spec.
  - apply tableEntry_spec.
  - apply tableEntry_spec.
  - intros A table dflt i. unfold tableEntry. repeat split.
    + intros Hneg. destruct (Z.ltb_spec i 0); [reflexivity | lia].
    + destruct (Z.ltb_spec i 0); [lia|].
      destruct (Z.ltb_spec i (Z.of_nat (length table))); [|lia].
      apply lookup_lt_is_Some. lia.
    + destruct (Z.ltb_spec i 0); [lia|].
      destruct (Z.ltb_spec i (Z.of_nat (length table))); [reflexivity | lia].
    + intros Hge. destruct (Z.ltb_spec i 0); [lia|].
      destruct (Z.ltb_spec i (Z.of_nat (length table))); [lia | reflexivity].
Qed.

Lemma componentData_names (masterModuleBusId : Z) (tabName : string)
      (componentNode : Element) :
  Forall (fun c =>
            Parser.Component.name c ∈
              ["Fluid Level"; "Binary Switch"; "Binary Indicator";
               "Temperature"; "Switch Control"; "J1939 AC PGN";
               "Proprietary PGN"] /\
            Parser.Component.direction c ∈ [""; "transmit"; "receive"] /\
            Parser.Component.tabName c = tabName)
         (Parser.componentData masterModuleBusId tabName componentNode).
Proof.
  unfold Parser.componentData.
  destruct (_ || _); [constructor|].
  unfold decodeComponent. simpl.
  destruct (parseInt (ToString (getAttribute componentNode "componentId")))
    as [c|]; simpl; [|constructor].
  destruct (COMPONENT_DECODERS !! c) as [decoder|] eqn:Hdec; [|constructor].
  apply registry_some in Hdec.
  assert (Hdir : forall i, Enums.name (Enums.fromId i)
                           ∈ [""; "transmit"; "receive"]).
  { intros i. destruct (Enums.fromId i); apply list_elem_of_In; simpl; tauto. }
  repeat (apply elem_of_cons in Hdec as [Hdec|Hdec];
          [injection Hdec as -> ->; simpl;
           constructor; [|constructor];
           split; [apply list_elem_of_In; simpl; tauto|];
           split; [|reflexivity];
           first [apply Hdir | apply list_elem_of_In; simpl; tauto] |]).
  apply elem_of_nil in Hdec. destruct Hdec.
Qed.

(** X13.  Every component that [parseComponents] returns has one of the
    seven names of the decoders and the direction "", "transmit" or
    "receive". *)
Theorem parseComponents_entries (browser : Browser) (xmlString : string) :
  Forall (fun c =>
            Parser.Component.name c ∈
              ["Fluid Level"; "Binary Switch"; "Binary Indicator";
               "Temperature"; "Switch Control"; "J1939 AC PGN";
               "Proprietary PGN"] /\
            Parser.Component.direction c ∈ [""; "transmit"; "receive"])
         (Parser.parseComponents xmlString).
Proof.
  unfold Parser.parseComponents. apply sort_Forall, flat_map_Forall.
  intros schema. apply flat_map_Forall. intros componentNode.
  eapply Forall_impl; [apply componentData_names|].
  intros c (Hname & Hdir & _). split; assumption.
Qed.

End MoreComponentDecoderFacts.

(** ** More of the channel settings decoder *)

Section MoreChannelDecoderFacts.
Import ChannelDecoder.

Lemma decodeOutputSettings_mapped (mainId subId : Z) (config : Config.t)
      (subtypeMap : gmap Z string) :
  mainId <> -1 ->
  OUTPUT_MAIN_SETTINGS !! mainId = Some config ->
  Config.subtype config = None ->
  Config.subtypeMap config = Some subtypeMap ->
  decodeOutputSettings mainId subId =
    {| Settings.type := Config.type config;
       Settings.subtype :=
         orStr (subtypeMap !! subId) (":unknown:" +:+ numToString subId) |}.
Proof.
  intros Hne Htable Hfixed Hmap. unfold decodeOutputSettings.
  destruct (Z.eqb_spec mainId (-1)) as [Heq|_]; [contradiction|].
  rewrite Htable, Hfixed, Hmap. reflexivity.
Qed.

(** X14.  When the main code of a side is a key of its table, the entry
    has no fixed subtype and its subtype map has no entry for the sub
    code, the decoded type is the type of the entry and the decoded
    subtype is ":unknown:" followed by the sub code. *)
Theorem unmapped_sub_code (side : Side) (channel : Channel.t)
        (config : Config.t) (subtypeMap : gmap Z string) :
  settingsTable side !! mainCode side channel = Some config ->
  (side = OutputSide -> mainCode side channel <> -1) ->
  Config.subtype config = None ->
  Config.subtypeMap config = Some subtypeMap ->
  subtypeMap !! subCode side channel = None ->
  decodedSide side channel =
    {| Settings.type := Config.type config;
       Settings.subtype := ":unknown:" +:+ numToString (subCode side channel) |}.
Proof.
  intros Htable Hout Hfixed Hmap Hsub. destruct side; simpl in *.
  - unfold decodeInputSettings. rewrite Htable, Hfixed, Hmap. simpl.
    rewrite Hsub. reflexivity.
  - unfold decodeOutputSettings.
    destruct (Z.eqb_spec
                (orNum (parseInt (Channel.outMainChannelSettingId channel)) (-1))
                (-1)) as [Heq|Hne].
    + exfalso. apply Hout; [reflexivity | exact Heq].
    + rewrite Htable, Hfixed, Hmap. simpl. rewrite Hsub. reflexivity.
Qed.

Lemma unmapped_sub_code_witness :
  let channel := Channel.mk "1" "pump" "Input" "64" "3" "" "" in
  let subtypeMap : gmap Z string :=
    list_to_map
      [(1, "voltage signal"); (2, "4-20 mA"); (4, "0-1500 Ohm");
       (5, "multiswitch"); (6, "firealarm (constant power)");
       (7, "multiswitch (68Ohm +/- 1%)"); (8, "dual fixed multiswitch");
       (9, "temp sensor ohm")] in
  let config := Config.mk "analog input" None (Some subtypeMap) in
  (settingsTable InputSide !! mainCode InputSide channel = Some config /\
   subtypeMap !! subCode InputSide channel = None) /\
  decodedSide InputSide channel =
    {| Settings.type := "analog input"; Settings.subtype := ":unknown:3" |}.
Proof.
  intros channel subtypeMap config.
  assert (Htable : settingsTable InputSide !! mainCode InputSide channel
                   = Some config) by reflexivity.
  assert (Hsub : subtypeMap !! subCode InputSide channel = None)
    by reflexivity.
  split; [split; assumption|].
  refine (unmapped_sub_code InputSide channel config subtypeMap
            Htable _ eq_refl eq_refl Hsub).
  intros Hside. discriminate Hside.
Defined.

(** X15.  The output codes are never 0: a text that parses to 0 gives -1.
    So the entries of the output table under sub code 0 are not reached:
    main code 52 decodes to "commonline" and main code 53 to "half bridge
    output +/-", each with the subtype ":unknown:" followed by the sub
    code, and main code 65 never decodes to "positive drive". *)
Theorem output_sub_code_zero_unreachable (channel : Channel.t) :
  let mainOutId := mainCode OutputSide channel in
  let subOutId := subCode OutputSide channel in
  let decoded := output (decodeChannelSettings channel) in
  mainOutId <> 0 /\ subOutId <> 0 /\
  (mainOutId = 52 ->
   decoded = {| Settings.type := "commonline";
                Settings.subtype := ":unknown:" +:+ numToString subOutId |}) /\
  (mainOutId = 53 ->
   decoded = {| Settings.type := "half bridge output +/-";
                Settings.subtype := ":unknown:" +:+ numToString subOutId |}) /\
  (mainOutId = 65 -> Settings.subtype decoded <> "positive drive").
Proof.
  cbv zeta.
  change (output (decodeChannelSettings channel)) with
    (decodeOutputSettings (mainCode OutputSide channel)
                          (subCode OutputSide channel)).
  assert (Hmain : mainCode OutputSide channel <> 0)
    by (apply orNum_nonzero; discriminate).
  assert (Hsub : subCode OutputSide channel <> 0)
    by (apply orNum_nonzero; discriminate).
  set (mainOutId := mainCode OutputSide channel) in *.
  set (subOutId := subCode OutputSide channel) in *.
  clearbody mainOutId subOutId.
  split; [exact Hmain|]. split; [exact Hsub|].
  assert (Hzero : forall label : string,
             (list_to_map [(0, label)] : gmap Z string) !! subOutId = None).
  { intros label. apply not_elem_of_list_to_map_1. simpl.
    intros Hin. apply list_elem_of_singleton in Hin. contradiction. }
  repeat split.
  - intros ->.
    rewrite (decodeOutputSettings_mapped 52 subOutId
               (Config.mk "commonline" None
                  (Some (list_to_map [(0, "normal")])))
               (list_to_map [(0, "normal")]));
      [|discriminate|reflexivity|reflexivity|reflexivity].
    rewrite Hzero. reflexivity.
  - intros ->.
    rewrite (decodeOutputSettings_mapped 53 subOutId
               (Config.mk "half bridge output +/-" None
                  (Some (list_to_map [(0, "normal half bridge")])))
               (list_to_map [(0, "normal half bridge")]));
      [|discriminate|reflexivity|reflexivity|reflexivity].
    rewrite Hzero. reflexivity.
  - intros ->.
    rewrite (decodeOutputSettings_mapped 65 subOutId
               (Config.mk "signal drive (max 50mA)" None
                  (Some (list_to_map [(0, "positive drive");
                                      (1, "negative drive")])))
               (list_to_map [(0, "positive drive"); (1, "negative drive")]));
      [|discriminate|reflexivity|reflexivity|reflexivity].
    cbn [Settings.subtype].
    destruct ((list_to_map [(0, "positive drive"); (1, "negative drive")]
               : gmap Z string) !! subOutId) as [label|] eqn:Hlabel.
    + apply elem_of_list_to_map_2 in Hlabel.
      apply elem_of_cons in Hlabel as [Hlabel|Hlabel];
        [injection Hlabel as Hs _; contradiction|].
      apply list_elem_of_singleton in Hlabel. injection Hlabel as _ ->.
      simpl. discriminate.
    + simpl. discriminate.
Qed.

(** X16.  A [channel] element with none of the four setting attributes
    decodes to the input pair ":unknown:0" and ":unknown:0" and to the
    output pair ":unknown:" and ":unknown:". *)
Theorem unset_channel_decodes_unknown (channel : Element) :
  getAttribute channel "inMainChannelSettingId" = None ->
  getAttribute channel "inChannelSettingId" = None ->
  getAttribute channel "outMainChannelSettingId" = None ->
  getAttribute channel "outChannelSettingId" = None ->
  decodeChannelSettings (Parser.channelData channel) =
    {| input := {| Settings.type := ":unknown:0";
                   Settings.subtype := ":unknown:0" |};
       output := {| Settings.type := ":unknown:";
                    Settings.subtype := ":unknown:" |} |}.
Proof.
  intros HinMain HinSub HoutMain HoutSub.
  unfold decodeChannelSettings, Parser.channelData. simpl.
  rewrite HinMain, HinSub, HoutMain, HoutSub. reflexivity.
Qed.

Lemma unset_channel_decodes_unknown_witness :
  let channel := Elem "channel" [("number", "9"); ("name", "spare")] [] in
  getAttribute channel "inMainChannelSettingId" = None /\
  decodeChannelSettings (Parser.channelData channel) =
    {| input := {| Settings.type := ":unknown:0";
                   Settings.subtype := ":unknown:0" |};
       output := {| Settings.type := ":unknown:";
                    Settings.subtype := ":unknown:" |} |}.
Proof.
  intros channel. split; [reflexivity|].
  exact (unset_channel_decodes_unknown channel eq_refl eq_refl eq_refl eq_refl).
Defined.

End MoreChannelDecoderFacts.

(** ** The enumerations *)

Section EnumFacts.

Lemma lowerChar_idempotent (c : ascii) : lowerChar (lowerChar c) = lowerChar c.
Proof. destruct c as [[] [] [] [] [] [] [] []]; reflexivity. Qed.

Lemma toLowerCase_idempotent (s : string) :
  toLowerCase (toLowerCase s) = toLowerCase s.
Proof.
  induction s as [|c s IH]; simpl; [reflexivity|].
  rewrite lowerChar_idempotent, IH. reflexivity.
Qed.

(** X17.  Each direction is found again from its id, and each channel
    direction from its name; a code outside 0, 1, 2 (outside 0, 1 for the
    NMEA 2000 direction) gives NONE; [Direction.fromString] does not
    tell the case of letters apart. *)
Theorem direction_round_trip :
  (forall d : Enums.Direction.t,
      Enums.Direction.fromId (Some (Enums.Direction.id d)) = d /\
      Enums.Direction.fromString (Some (Enums.Direction.name d)) = d) /\
  (forall d : Enums.N2kDirection, Enums.fromId (Some (Enums.id d)) = d) /\
  (forall i : Z,
      i ∉ [0; 1; 2] -> Enums.Direction.fromId (Some i) = Enums.Direction.NONE) /\
  (forall i : Z, i ∉ [0; 1] -> Enums.fromId (Some i) = Enums.NONE) /\
  (forall s : string,
      Enums.Direction.fromString (Some (toLowerCase s)) =
      Enums.Direction.fromString (Some s)).
Proof.
  split; [|split; [|split; [|split]]].
  - intros []; split; reflexivity.
  - intros []; reflexivity.
  - intros i Hi. destruct i as [|[[]|[]|]|]; try reflexivity;
      exfalso; apply Hi; apply list_elem_of_In; simpl; tauto.
  - intros i Hi. destruct i as [|[]|]; try reflexivity;
      exfalso; apply Hi; apply list_elem_of_In; simpl; tauto.
  - intros s. unfold Enums.Direction.fromString. simpl.
    rewrite toLowerCase_idempotent. reflexivity.
Qed.

End EnumFacts.

(** ** Statistics and the bill of materials *)

Section CountingFacts.
Import Utils Modules.

(** Equality of the four counters, component by component. *)
Ltac counters := repeat (apply (f_equal2 pair)); lia.

Lemma countDirection_cons (direction : string) (channel : ChannelDecoder.Channel.t)
      (channels : list ChannelDecoder.Channel.t) :
  countDirection direction (channel :: channels) =
  (if String.eqb (ChannelDecoder.Channel.direction channel) direction
   then 1 else 0) + countDirection direction channels.
Proof.
  unfold countDirection. rewrite filter_cons.
  destruct (String.eqb_spec (ChannelDecoder.Channel.direction channel) direction)
    as [Heq|Hne].
  - rewrite decide_True by exact Heq. simpl length. lia.
  - rewrite decide_False by exact Hne. lia.
Qed.

Lemma countDirection_app (direction : string)
      (l1 l2 : list ChannelDecoder.Channel.t) :
  countDirection direction (l1 ++ l2) =
  countDirection direction l1 + countDirection direction l2.
Proof.
  unfold countDirection. rewrite filter_app, length_app. lia.
Qed.

Lemma countChannel_step (channel : ChannelDecoder.Channel.t) (t i o b : Z) :
  let direction := ChannelDecoder.Channel.direction channel in
  countChannel (t, i, o, b) channel =
  (t + 1,
   i + (if String.eqb direction "Input" then 1 else 0),
   o + (if String.eqb direction "Output" then 1 else 0),
   b + (if String.eqb direction "Both" then 1 else 0)).
Proof.
  cbv zeta. unfold countChannel.
  destruct (String.eqb_spec (ChannelDecoder.Channel.direction channel) "Input")
    as [->|_]; [cbn; counters|].
  destruct (String.eqb_spec (ChannelDecoder.Channel.direction channel) "Output")
    as [->|_]; [cbn; counters|].
  destruct (String.eqb (ChannelDecoder.Channel.direction channel) "Both");
    counters.
Qed.

(** The innermost loop adds to the counters the counts of its channels. *)
Lemma fold_countChannel (channels : list ChannelDecoder.Channel.t)
      (t i o b : Z) :
  foldl countChannel (t, i, o, b) channels =
  (t + Z.of_nat (length channels),
   i + countDirection "Input" channels,
   o + countDirection "Output" channels,
   b + countDirection "Both" channels).
Proof.
  revert t i o b. induction channels as [|channel channels IH]; intros t i o b.
  - unfold countDirection. simpl. counters.
  - cbn [foldl]. rewrite countChannel_step. cbv zeta. rewrite IH.
    rewrite !countDirection_cons. cbn [length].
    counters.
Qed.

Lemma fold_groups (groups : list Parser.ChannelGroup.t) (t i o b : Z) :
  let channels := flat_map Parser.ChannelGroup.channels groups in
  foldl (fun counters group =>
           foldl countChannel counters (Parser.ChannelGroup.channels group))
        (t, i, o, b) groups =
  (t + Z.of_nat (length channels),
   i + countDirection "Input" channels,
   o + countDirection "Output" channels,
   b + countDirection "Both" channels).
Proof.
  revert t i o b. induction groups as [|group groups IH]; intros t i o b.
  - unfold countDirection. simpl. counters.
  - cbn [foldl flat_map]. rewrite fold_countChannel. cbv zeta in IH.
    rewrite IH. rewrite !countDirection_app, length_app.
    counters.
Qed.

Lemma fold_units (units : list Parser.Unit.t) (t i o b : Z) :
  foldl (fun counters unit =>
           foldl (fun counters group =>
                    foldl countChannel counters
                          (Parser.ChannelGroup.channels group))
                 counters (Parser.Unit.channels unit))
        (t, i, o, b) units =
  (t + Z.of_nat (length (allChannels units)),
   i + countDirection "Input" (allChannels units),
   o + countDirection "Output" (allChannels units),
   b + countDirection "Both" (allChannels units)).
Proof.
  revert t i o b. induction units as [|unit units IH]; intros t i o b.
  - unfold countDirection. simpl. counters.
  - cbn [foldl]. rewrite (fold_groups (Parser.Unit.channels unit)).
    rewrite IH. unfold allChannels. cbn [flat_map].
    rewrite !countDirection_app, length_app.
    counters.
Qed.

Lemma countDirection_total (channels : list ChannelDecoder.Channel.t) :
  countDirection "Input" channels + countDirection "Output" channels +
  countDirection "Both" channels <= Z.of_nat (length channels).
Proof.
  induction channels as [|channel channels IH].
  - unfold countDirection. simpl. lia.
  - rewrite !countDirection_cons. cbn [length].
    destruct (String.eqb_spec (ChannelDecoder.Channel.direction channel) "Input")
      as [->|_]; [simpl String.eqb; lia|].
    destruct (String.eqb_spec (ChannelDecoder.Channel.direction channel) "Output")
      as [->|_]; [simpl String.eqb; lia|].
    destruct (String.eqb (ChannelDecoder.Channel.direction channel) "Both"); lia.
Qed.

(** X18.  [getStatistics] counts the units, all their channels, and the
    channels whose direction is exactly "Input", "Output" and "Both"; the
    three direction counts together do not exceed the total. *)
Theorem getStatistics_counts (units : list Parser.Unit.t) :
  let stats := getStatistics units in
  let channels := allChannels units in
  Statistics.totalUnits stats = Z.of_nat (length units) /\
  Statistics.totalChannels stats = Z.of_nat (length channels) /\
  Statistics.inputChannels stats = countDirection "Input" channels /\
  Statistics.outputChannels stats = countDirection "Output" channels /\
  Statistics.bothChannels stats = countDirection "Both" channels /\
  Statistics.inputChannels stats + Statistics.outputChannels stats +
  Statistics.bothChannels stats <= Statistics.totalChannels stats.
Proof.
  cbv zeta. unfold getStatistics. rewrite fold_units.
  cbn [Statistics.totalUnits Statistics.totalChannels Statistics.inputChannels
       Statistics.outputChannels Statistics.bothChannels].
  pose proof (countDirection_total (allChannels units)).
  repeat split; lia.
Qed.

(** *** The bill of materials *)

Lemma totalQuantity_app (l1 l2 : list Bom.t) :
  totalQuantity (l1 ++ l2) = totalQuantity l1 + totalQuantity l2.
Proof.
  unfold totalQuantity. induction l1 as [|entry l1 IH]; simpl; [reflexivity|].
  rewrite IH. lia.
Qed.

Lemma totalQuantity_Permutation (l1 l2 : list Bom.t) :
  l1 ≡ₚ l2 -> totalQuantity l1 = totalQuantity l2.
Proof.
  unfold totalQuantity.
  induction 1 as [|x l l' _ IH|x y l|l l' l'' _ IH1 _ IH2]; simpl;
    [reflexivity | rewrite IH; reflexivity | lia | congruence].
Qed.

Lemma mapQuantity_cons (k : string) (entry : Bom.t)
      (rest : list (string * Bom.t)) :
  mapQuantity ((k, entry) :: rest) = Bom.quantity entry + mapQuantity rest.
Proof. reflexivity. Qed.

Lemma increment_quantity (key : string) (bomMap : list (string * Bom.t)) :
  has key bomMap = true ->
  mapQuantity (increment key bomMap) = mapQuantity bomMap + 1.
Proof.
  unfold has.
  induction bomMap as [|[k entry] rest IH]; [discriminate|].
  cbn [existsb fst increment].
  destruct (String.eqb k key); cbn [orb].
  - intros _. rewrite !mapQuantity_cons. cbn [Bom.quantity]. lia.
  - intros Hrest. rewrite !mapQuantity_cons. rewrite (IH Hrest). lia.
Qed.

Lemma increment_shape (key : string) (bomMap : list (string * Bom.t)) :
  length (increment key bomMap) = length bomMap /\
  (Forall (fun kv => 1 <= Bom.quantity (snd kv)) bomMap ->
   Forall (fun kv => 1 <= Bom.quantity (snd kv)) (increment key bomMap)).
Proof.
  induction bomMap as [|[k entry] rest [IHlen IHall]]; simpl.
  - split; [reflexivity | intros _; constructor].
  - destruct (String.eqb k key); simpl.
    + split; [reflexivity|]. intros Hall.
      apply Forall_cons in Hall as [Hentry Hrest].
      constructor; [simpl in *; lia | exact Hrest].
    + split; [rewrite IHlen; reflexivity|]. intros Hall.
      apply Forall_cons in Hall as [Hentry Hrest].
      constructor; [exact Hentry | apply IHall; exact Hrest].
Qed.

Lemma addUnit_invariant (bomMap : list (string * Bom.t)) (unit : Parser.Unit.t) :
  mapQuantity (addUnit bomMap unit) = mapQuantity bomMap + 1 /\
  (length (addUnit bomMap unit) <= S (length bomMap))%nat /\
  (Forall (fun kv => 1 <= Bom.quantity (snd kv)) bomMap ->
   Forall (fun kv => 1 <= Bom.quantity (snd kv)) (addUnit bomMap unit)).
Proof.
  unfold addUnit.
  destruct (has _ bomMap) eqn:Hhas.
  - split; [apply increment_quantity; exact Hhas|].
    destruct (increment_shape
                (Parser.Unit.name unit +:+ "|" +:+
                 orStr (Some (Parser.Unit.standardUnitVariantNumber unit)) "")
                bomMap) as [Hlen Hall].
    split; [rewrite Hlen; lia | exact Hall].
  - split; [|split].
    + unfold mapQuantity. rewrite fmap_app, totalQuantity_app. simpl. lia.
    + rewrite length_app. simpl. lia.
    + intros Hall. apply Forall_app. split; [exact Hall|].
      constructor; [simpl; lia | constructor].
Qed.

Lemma fold_addUnit (units : list Parser.Unit.t) (bomMap : list (string * Bom.t)) :
  mapQuantity (foldl addUnit bomMap units) =
    mapQuantity bomMap + Z.of_nat (length units) /\
  (length (foldl addUnit bomMap units) <= length bomMap + length units)%nat /\
  (Forall (fun kv => 1 <= Bom.quantity (snd kv)) bomMap ->
   Forall (fun kv => 1 <= Bom.quantity (snd kv)) (foldl addUnit bomMap units)).
Proof.
  revert bomMap. induction units as [|unit units IH]; intros bomMap.
  - simpl. split; [lia|]. split; [lia | tauto].
  - cbn [foldl].
    destruct (IH (addUnit bomMap unit)) as (Hsum & Hlen & Hall).
    destruct (addUnit_invariant bomMap unit) as (Hsum1 & Hlen1 & Hall1).
    split; [rewrite Hsum, Hsum1; cbn [length]; lia|].
    split; [cbn [length]; lia|].
    intros Hinit. apply Hall, Hall1, Hinit.
Qed.

(** X19.  The quantities of the bill of materials add up to the number of
    units; every entry has a quantity of at least 1, and there are no
    more entries than units. *)
Theorem generateBOM_quantities (browser : Browser) (units : list Parser.Unit.t) :
  totalQuantity (generateBOM units) = Z.of_nat (length units) /\
  Forall (fun entry => 1 <= Bom.quantity entry) (generateBOM units) /\
  (length (generateBOM units) <= length units)%nat.
Proof.
  unfold generateBOM.
  destruct (fold_addUnit units []) as (Hsum & Hlen & Hall).
  split; [|split].
  - rewrite (totalQuantity_Permutation _ _ (sort_Permutation _ _)).
    exact Hsum.
  - apply sort_Forall. apply Forall_fmap. apply Hall. constructor.
  - rewrite (Permutation_length (sort_Permutation _ _)).
    rewrite length_fmap. simpl in Hlen. exact Hlen.
Qed.

End CountingFacts.

(** ** The decoded strings are never empty *)

Section DecodedStrings.
Import ChannelDecoder.

(** Takes a membership in a literal list apart, closing every case with
    [tac]. *)
Ltac each_entry H tac :=
  repeat (apply elem_of_cons in H as [H|H]; [tac|]);
  apply elem_of_nil in H; destruct H.

Lemma unknown_nonempty (n : Z) : ":unknown:" +:+ numToString n <> "".
Proof. simpl. discriminate. Qed.

Lemma input_entries_labelled (mainId : Z) (config : Config.t) :
  INPUT_MAIN_SETTINGS !! mainId = Some config -> entryLabelled config.
Proof.
  intros Hentry. apply elem_of_list_to_map_2 in Hentry.
  each_entry Hentry
    ltac:(injection Hentry as _ ->; split; [discriminate|];
          intros subtypeMap subId label Hmap Hlabel;
          cbn [Config.subtypeMap] in Hmap;
          try discriminate Hmap;
          injection Hmap as <-;
          repeat (apply lookup_insert_Some in Hlabel
                    as [[_ <-]|[_ Hlabel]]; [discriminate|]);
          rewrite lookup_empty in Hlabel; discriminate Hlabel).
Qed.

Lemma output_entries_labelled (mainId : Z) (config : Config.t) :
  OUTPUT_MAIN_SETTINGS !! mainId = Some config -> entryLabelled config.
Proof.
  intros Hentry. apply elem_of_list_to_map_2 in Hentry.
  each_entry Hentry
    ltac:(injection Hentry as _ ->; split; [discriminate|];
          intros subtypeMap subId label Hmap Hlabel;
          cbn [Config.subtypeMap] in Hmap;
          try discriminate Hmap;
          injection Hmap as <-;
          repeat (apply lookup_insert_Some in Hlabel
                    as [[_ <-]|[_ Hlabel]]; [discriminate|]);
          rewrite lookup_empty in Hlabel; discriminate Hlabel).
Qed.

Lemma labelled_settings (config : Config.t) (subId : Z) :
  entryLabelled config ->
  let decoded :=
    match Config.subtype config with
    | Some (String c s) =>
        {| Settings.type := Config.type config;
           Settings.subtype := String c s |}
    | _ =>
        let subtype := Config.subtypeMap config ≫= (.!! subId) in
        {| Settings.type := Config.type config;
           Settings.subtype :=
             orStr subtype (":unknown:" +:+ numToString subId) |}
    end in
  Settings.type decoded <> "" /\ Settings.subtype decoded <> "".
Proof.
  intros [Htype Hlabels]. cbv zeta.
  destruct (Config.subtype config) as [[|c s]|]; simpl;
    (split; [exact Htype|]); try discriminate.
  - destruct (Config.subtypeMap config) as [subtypeMap|]; simpl;
      [|discriminate].
    destruct (subtypeMap !! subId) as [[|c s]|] eqn:Hlabel; simpl;
      discriminate.
  - destruct (Config.subtypeMap config) as [subtypeMap|]; simpl;
      [|discriminate].
    destruct (subtypeMap !! subId) as [[|c s]|] eqn:Hlabel; simpl;
      discriminate.
Qed.

(** X20.  For every channel the four decoded strings, type and subtype of
    the input and of the output, are not empty. *)
Theorem decoded_strings_nonempty (channel : Channel.t) :
  let decoded := decodeChannelSettings channel in
  Settings.type (input decoded) <> "" /\
  Settings.subtype (input decoded) <> "" /\
  Settings.type (output decoded) <> "" /\
  Settings.subtype (output decoded) <> "".
Proof.
  cbv zeta. unfold decodeChannelSettings. cbn [input output].
  set (mainInId := orNum (parseInt (Channel.inMainChannelSettingId channel)) 0).
  set (subInId := orNum (parseInt (Channel.inChannelSettingId channel)) 0).
  set (mainOutId :=
         orNum (parseInt (Channel.outMainChannelSettingId channel)) (-1)).
  set (subOutId := orNum (parseInt (Channel.outChannelSettingId channel)) (-1)).
  clearbody mainInId subInId mainOutId subOutId.
  assert (Hin : Settings.type (decodeInputSettings mainInId subInId) <> "" /\
                Settings.subtype (decodeInputSettings mainInId subInId) <> "").
  { unfold decodeInputSettings.
    destruct (INPUT_MAIN_SETTINGS !! mainInId) as [config|] eqn:Hentry.
    - apply (labelled_settings config subInId).
      eapply input_entries_labelled. exact Hentry.
    - split; apply unknown_nonempty. }
  assert (Hout : Settings.type (decodeOutputSettings mainOutId subOutId) <> "" /\
                 Settings.subtype (decodeOutputSettings mainOutId subOutId) <> "").
  { unfold decodeOutputSettings.
    destruct (mainOutId =? -1); [split; discriminate|].
    destruct (OUTPUT_MAIN_SETTINGS !! mainOutId) as [config|] eqn:Hentry.
    - apply (labelled_settings config subOutId).
      eapply output_entries_labelled. exact Hentry.
    - split; apply unknown_nonempty. }
  tauto.
Qed.

End DecodedStrings.
